(** * memory-mem0: the Mem0 memory plugin of [src/index.ts]

    A shallow embedding of the plugin: the configuration parser, the
    [Mem0Client] class with its one mutable field, the three tools, the
    three CLI commands and the two lifecycle hooks.  JavaScript strings are
    sequences of UTF-16 code units, JavaScript numbers are binary64 floats,
    and the effects of the code ([fetch], [console], exceptions, the
    [healthChecked] field) are threaded through a state-and-exception monad
    whose state records every request and every console line.  The payload
    of [agent_end], which the source types [any], is modelled twice: at the
    shape the handler expects, and with a content that need not be a
    string. *)

From Stdlib Require Import List ZArith NArith Lia Bool String Ascii.
From Stdlib Require Import DecimalString Floats.
Import ListNotations.

#[local] Set Warnings "-inexact-float,-register-all".

(** ** JavaScript values used by the plugin *)

Module JS.

(** A string is its sequence of UTF-16 code units: [length], [includes]
    and [trim] all work on code units. *)
Definition jsstring := list N.

Definition lit (s : string) : jsstring :=
  map N_of_ascii (list_ascii_of_string s).

Fixpoint eqb (a b : jsstring) : bool :=
  match a, b with
  | [], [] => true
  | x :: a', y :: b' => N.eqb x y && eqb a' b'
  | _, _ => false
  end.

(** [s || d] on strings: the empty string is falsy. *)
Definition str_truthy (s : jsstring) : bool :=
  match s with [] => false | _ :: _ => true end.

(** [String.prototype.includes]. *)
Fixpoint starts_with (needle hay : jsstring) : bool :=
  match needle, hay with
  | [], _ => true
  | _ :: _, [] => false
  | x :: n', y :: h' => N.eqb x y && starts_with n' h'
  end.

Fixpoint includes (hay needle : jsstring) : bool :=
  starts_with needle hay ||
  match hay with
  | [] => false
  | _ :: h' => includes h' needle
  end.

(** ECMAScript WhiteSpace and LineTerminator code points, all of them in
    the basic plane: TAB, LF, VT, FF, CR, SP, NBSP, U+1680, U+2000 to
    U+200A, LS, PS, U+202F, U+205F, U+3000 and the BOM. *)
Definition is_space (c : N) : bool :=
  ((9 <=? c) && (c <=? 13) || (c =? 32) || (c =? 160) || (c =? 5760)
   || (8192 <=? c) && (c <=? 8202) || (c =? 8232) || (c =? 8233)
   || (c =? 8239) || (c =? 8287) || (c =? 12288) || (c =? 65279))%N.

Fixpoint trim_start (s : jsstring) : jsstring :=
  match s with
  | [] => []
  | c :: s' => if is_space c then trim_start s' else s
  end.

Definition trim_end (s : jsstring) : jsstring :=
  rev (trim_start (rev s)).

(** [String.prototype.trim]. *)
Definition trim (s : jsstring) : jsstring := trim_end (trim_start s).

(** [Array.prototype.join] on an array of strings. *)
Fixpoint join (sep : jsstring) (xs : list jsstring) : jsstring :=
  match xs with
  | [] => []
  | [x] => x
  | x :: xs' => x ++ sep ++ join sep xs'
  end.

(** A number is a binary64 float.  [0], [-0] and [NaN] are falsy. *)
Definition num_truthy (x : float) : bool :=
  negb (PrimFloat.eqb x 0 || PrimFloat.is_nan x).

(** [a >= b] on numbers. *)
Definition geb (a b : float) : bool := PrimFloat.leb b a.

(** Decimal digits of a natural number. *)
Definition digits (n : N) : jsstring :=
  lit (NilZero.string_of_uint (N.to_uint n)).

Section NumberToString.

(** [Number::toString] (also [String(x)] on a number) is a built-in of
    the host; the plugin only passes its result on. *)
Variable Number_toString : float -> jsstring.

(** [Number.prototype.toFixed(2)], after ECMA-262: a non-finite number
    prints as [NaN], [Infinity] or [-Infinity]; a magnitude of at least
    [10^21] is printed by [Number::toString]; otherwise the nearest
    integer [n] to [100 * |x|] (the larger one on a tie) is printed with
    a point before its last two digits. *)
Definition toFixed2 (x : float) : jsstring :=
  match Prim2SF x with
  | S754_nan => lit "NaN"
  | S754_infinity s => if s then lit "-Infinity" else lit "Infinity"
  | S754_zero _ => lit "0.00"
  | S754_finite s m e =>
      let sign := if s then lit "-" else [] in
      if (10 ^ 21 <=? Z.pos m * 2 ^ e)%Z
      then sign ++ Number_toString (PrimFloat.abs x)
      else
        let n :=
          (if 0 <=? e then Z.pos m * 100 * 2 ^ e
           else (Z.pos m * 200 + 2 ^ (- e)) / 2 ^ (1 - e))%Z in
        let d := digits (Z.to_N n) in
        let d := repeat 48%N (3 - List.length d) ++ d in
        let k := List.length d in
        sign ++ firstn (k - 2) d ++ lit "." ++ skipn (k - 2) d
  end.

End NumberToString.

End JS.

Import JS.

Arguments lit : simpl never.
Arguments digits : simpl never.

(** ** Data model (the interfaces at the top of [src/index.ts]) *)

Record Mem0Config := {
  baseUrl : jsstring;
  userId : jsstring;
  autoCapture : bool;
  autoRecall : bool;
  recallLimit : float;
  recallThreshold : float
}.

(** [metadata] is never read by the plugin and is left out. *)
Record Memory := {
  id : jsstring;
  memory : jsstring;
  score : option float
}.

Record AddedMemory := {
  added_id : jsstring;
  added_memory : jsstring;
  added_event : jsstring
}.

(** The body of the answer to a [POST], read the way [memory_store] reads
    it: [success] is the truth value of the property of that name (false
    when it is missing), and [results] is [result.results], [None] when
    [result] or its [results] is missing. *)
Record AddResponse := {
  success : bool;
  results : option (list AddedMemory)
}.

(** ** Configuration *)

(** The object the host supplies as [api.pluginConfig]: every field may be
    absent; a present field has the type [Mem0Config] gives it. *)
Record RawConfig := {
  raw_baseUrl : option jsstring;
  raw_userId : option jsstring;
  raw_autoCapture : option bool;
  raw_autoRecall : option bool;
  raw_recallLimit : option float;
  raw_recallThreshold : option float
}.

Definition empty_object : RawConfig :=
  {| raw_baseUrl := None; raw_userId := None; raw_autoCapture := None;
     raw_autoRecall := None; raw_recallLimit := None;
     raw_recallThreshold := None |}.

(** [x || d] for an optional string and for an optional number. *)
Definition str_or (x : option jsstring) (d : jsstring) : jsstring :=
  match x with
  | Some s => if str_truthy s then s else d
  | None => d
  end.

Definition num_or (x : option float) (d : float) : float :=
  match x with
  | Some n => if num_truthy n then n else d
  | None => d
  end.

(** [x !== false]. *)
Definition not_false (x : option bool) : bool :=
  match x with
  | Some false => false
  | _ => true
  end.

Module configSchema.

(** [value] is [None] for an [undefined] or [null] plugin configuration. *)
Definition parse (value : option RawConfig) : Mem0Config :=
  let v := match value with Some v => v | None => empty_object end in
  {| baseUrl := str_or (raw_baseUrl v) (lit "http://127.0.0.1:8420");
     userId := str_or (raw_userId v) (lit "openclaw");
     autoCapture := not_false (raw_autoCapture v);
     autoRecall := not_false (raw_autoRecall v);
     recallLimit := num_or (raw_recallLimit v) 5;
     recallThreshold := num_or (raw_recallThreshold v) 0.4 |}.

End configSchema.

(** ** The outside world: HTTP and the console *)

Inductive Method := GET | POST | DELETE.

(** The text [JSON.stringify] produces for a request body, as its syntax
    tree.  A property whose value is [undefined] is not serialised. *)
Inductive Json :=
| JString (s : jsstring)
| JObject (fields : list (jsstring * Json)).

(** A call of [fetch].  [url] is the address up to the query string,
    [query] the entries of the [URLSearchParams] appended after [?] (their
    percent-encoding is the platform's), [timeout] the [AbortSignal.timeout]
    in milliseconds. *)
Record Request := {
  method : Method;
  url : jsstring;
  query : list (jsstring * jsstring);
  headers : list (jsstring * jsstring);
  timeout : option N;
  body : option Json
}.

(** What [response.json()] resolves to, at the types the source gives the
    bodies it reads: the [/health] object with its optional [status], a
    [SearchResponse] whose [memories] may be missing, an [AddResponse], or
    the JSON value [null]. *)
Inductive JsonValue :=
| JNull
| JHealth (status : option jsstring)
| JSearch (memories : option (list Memory))
| JAdd (r : AddResponse).

(** [json = None]: the body is not JSON and [response.json()] rejects. *)
Record Response := {
  status : N;
  statusText : jsstring;
  json : option JsonValue
}.

(** [response.ok]: the status is in the range 200 to 299. *)
Definition ok (r : Response) : bool :=
  ((200 <=? status r) && (status r <=? 299))%N.

(** A [fetch] either rejects (no connection, or the abort signal fired) or
    resolves to a response.  Every call is taken to settle. *)
Inductive FetchOutcome :=
| Rejected
| Responded (r : Response).

Inductive Err :=
| FetchFailed                      (* the rejection of [fetch] *)
| Error (message : jsstring)       (* [new Error(message)] *)
| SyntaxError                      (* the rejection of [response.json()] *)
| TypeError.                       (* a property read on [null] *)

Inductive Level := Log | Warn | ErrorLevel.

Inductive Event :=
| Fetch (req : Request) (out : FetchOutcome)
| Console (level : Level) (text : jsstring) (error : option Err).

(** The state a client runs in: its [healthChecked] field and everything it
    has done to the outside world so far, oldest first. *)
Record World := {
  healthChecked : bool;
  trace : list Event
}.

Definition fresh : World := {| healthChecked := false; trace := [] |}.

(** ** Computations: state and exceptions *)

Inductive Result (A : Type) :=
| Ok (a : A)
| Throw (e : Err).

Arguments Ok {A} a.
Arguments Throw {A} e.

Definition M (A : Type) : Type := World -> Result A * World.

Definition ret {A} (a : A) : M A := fun w => (Ok a, w).

Definition throw {A} (e : Err) : M A := fun w => (Throw e, w).

Definition bind {A B} (m : M A) (k : A -> M B) : M B :=
  fun w =>
    match m w with
    | (Ok a, w') => k a w'
    | (Throw e, w') => (Throw e, w')
    end.

(** [try { body } catch (error) { handler }]: what [body] did to the world
    before it threw stays done. *)
Definition try_catch {A} (body : M A) (handler : Err -> M A) : M A :=
  fun w =>
    match body w with
    | (Ok a, w') => (Ok a, w')
    | (Throw e, w') => handler e w'
    end.

Declare Scope js_scope.
Delimit Scope js_scope with js.
Notation "x <- m ;; k" := (bind m (fun x => k))
  (at level 61, m at next level, right associativity) : js_scope.
Notation "m ;; k" := (bind m (fun _ => k))
  (at level 61, right associativity) : js_scope.
Open Scope js_scope.

Definition emit (e : Event) : M unit :=
  fun w => (Ok tt, {| healthChecked := healthChecked w;
                      trace := trace w ++ [e] |}).

Definition console (l : Level) (text : jsstring) (error : option Err) : M unit :=
  emit (Console l text error).

Definition set_healthChecked (b : bool) : M unit :=
  fun w => (Ok tt, {| healthChecked := b; trace := trace w |}).

Definition get_healthChecked : M bool :=
  fun w => (Ok (healthChecked w), w).

(** [${v}] for an optional string. *)
Definition template (v : option jsstring) : jsstring :=
  match v with
  | Some s => s
  | None => lit "undefined"
  end.

Definition content_type_json : list (jsstring * jsstring) :=
  [(lit "Content-Type", lit "application/json")].

(** ** The client *)

Module Mem0Client.
Section Client.

(** [String(x)] on a number: a built-in of the host. *)
Variable Number_toString : float -> jsstring.

(** The server and the network between: the outcome of a [fetch] may
    depend on everything that happened before it. *)
Variable server : list Event -> Request -> FetchOutcome.

(** [this.config]. *)
Variable config : Mem0Config.

Definition fetch (req : Request) : M Response :=
  fun w =>
    let out := server (trace w) req in
    let w' := {| healthChecked := healthChecked w;
                 trace := trace w ++ [Fetch req out] |} in
    match out with
    | Rejected => (Throw FetchFailed, w')
    | Responded r => (Ok r, w')
    end.

(** [await response.json()]. *)
Definition response_json (r : Response) : M JsonValue :=
  match json r with
  | Some v => ret v
  | None => throw SyntaxError
  end.

(** [data.status]: reading a property of [null] throws. *)
Definition data_status (data : JsonValue) : M (option jsstring) :=
  match data with
  | JNull => throw TypeError
  | JHealth st => ret st
  | JSearch _ | JAdd _ => ret None
  end.

(** [data.memories || []]. *)
Definition data_memories (data : JsonValue) : M (list Memory) :=
  match data with
  | JNull => throw TypeError
  | JSearch (Some ms) => ret ms
  | JSearch None | JHealth _ | JAdd _ => ret []
  end.

Definition health_request : Request :=
  {| method := GET;
     url := baseUrl config ++ lit "/health";
     query := [];
     headers := [];
     timeout := Some 5000%N;
     body := None |}.

Definition ensureHealthy : M unit :=
  checked <- get_healthChecked ;;
  if checked then ret tt
  else
    try_catch
      (response <- fetch health_request ;;
       (if negb (ok response)
        then console Warn (lit "[memory-mem0] Health check failed: "
                             ++ digits (status response)) None
        else
          data <- response_json response ;;
          st <- data_status data ;;
          console Log (lit "[memory-mem0] Connected to Mem0 server: "
                         ++ template st) None) ;;
       set_healthChecked true)
      (fun error =>
         console Warn (lit "[memory-mem0] Could not connect to Mem0 server:")
                 (Some error)).

(** [limit || this.config.recallLimit]. *)
Definition effective_limit (limit : option float) : float :=
  num_or limit (recallLimit config).

Definition search_request (q : jsstring) (limit : option float) : Request :=
  {| method := GET;
     url := baseUrl config ++ lit "/memories/search";
     query := [(lit "query", q);
               (lit "user_id", userId config);
               (lit "limit", Number_toString (effective_limit limit))];
     headers := content_type_json;
     timeout := None;
     body := None |}.

Definition search (q : jsstring) (limit : option float) : M (list Memory) :=
  ensureHealthy ;;
  try_catch
    (response <- fetch (search_request q limit) ;;
     (if negb (ok response)
      then throw (Error (lit "Search failed: " ++ statusText response))
      else ret tt) ;;
     data <- response_json response ;;
     data_memories data)
    (fun error =>
       console ErrorLevel (lit "[memory-mem0] Search error:") (Some error) ;;
       ret []).

(** [agentId ? { agent_id: agentId } : undefined]. *)
Definition add_metadata (agentId : option jsstring) : option Json :=
  match agentId with
  | Some a =>
      if str_truthy a then Some (JObject [(lit "agent_id", JString a)])
      else None
  | None => None
  end.

(** [JSON.stringify(body)]: [metadata] is dropped when [undefined]. *)
Definition add_body (content : jsstring) (agentId : option jsstring) : Json :=
  JObject
    ([(lit "content", JString content);
      (lit "user_id", JString (userId config))]
     ++ match add_metadata agentId with
        | Some md => [(lit "metadata", md)]
        | None => []
        end).

Definition add_request (content : jsstring) (agentId : option jsstring)
  : Request :=
  {| method := POST;
     url := baseUrl config ++ lit "/memories";
     query := [];
     headers := content_type_json;
     timeout := None;
     body := Some (add_body content agentId) |}.

(** The result is [None] for [null]: the one the [catch] returns, or a
    JSON [null] the server sent. *)
Definition add (content : jsstring) (agentId : option jsstring)
  : M (option JsonValue) :=
  ensureHealthy ;;
  try_catch
    (response <- fetch (add_request content agentId) ;;
     (if negb (ok response)
      then throw (Error (lit "Add failed: " ++ statusText response))
      else ret tt) ;;
     data <- response_json response ;;
     ret (match data with JNull => None | _ => Some data end))
    (fun error =>
       console ErrorLevel (lit "[memory-mem0] Add error:") (Some error) ;;
       ret None).

Definition list_request : Request :=
  {| method := GET;
     url := baseUrl config ++ lit "/memories";
     query := [(lit "user_id", userId config)];
     headers := content_type_json;
     timeout := None;
     body := None |}.

Definition list : M (list Memory) :=
  ensureHealthy ;;
  try_catch
    (response <- fetch list_request ;;
     (if negb (ok response)
      then throw (Error (lit "List failed: " ++ statusText response))
      else ret tt) ;;
     data <- response_json response ;;
     data_memories data)
    (fun error =>
       console ErrorLevel (lit "[memory-mem0] List error:") (Some error) ;;
       ret []).

Definition delete_request (id : jsstring) : Request :=
  {| method := DELETE;
     url := baseUrl config ++ lit "/memories/" ++ id;
     query := [];
     headers := content_type_json;
     timeout := None;
     body := None |}.

Definition delete (id : jsstring) : M bool :=
  ensureHealthy ;;
  try_catch
    (response <- fetch (delete_request id) ;;
     (if negb (ok response)
      then throw (Error (lit "Delete failed: " ++ statusText response))
      else ret tt) ;;
     ret true)
    (fun error =>
       console ErrorLevel (lit "[memory-mem0] Delete error:") (Some error) ;;
       ret false).

End Client.
End Mem0Client.

(** ** The plugin: tools and lifecycle hooks *)

(** [{ content: [{ type: "text", text }] }]. *)
Record ContentItem := {
  type : jsstring;
  text : jsstring
}.

Record ToolResult := {
  content : list ContentItem
}.

Definition text_result (t : jsstring) : ToolResult :=
  {| content := [ {| type := lit "text"; text := t |} ] |}.

(** The payload of [before_agent_start] and what the hook may return. *)
Record StartEvent := {
  prompt : option jsstring
}.

Record HookResult := {
  prependContext : jsstring
}.

(** A conversation message and the payload of [agent_end]. *)
Record Message := {
  role : jsstring;
  msg_content : option jsstring       (* [msg.content] *)
}.

Record EndEvent := {
  messages : option (list Message);
  agentId : option jsstring
}.

(** The payload of [agent_end] is typed [any]: the host may deliver a
    [content] that is not a string.  [Falsy] is a content that is missing
    or falsy ([undefined], [null], the empty string, [0], [false], [NaN]),
    [Parts] an array, whose elements are strings or objects, and
    [OtherValue] any other truthy value that is not a string (a number,
    [true], an object without [includes]). *)
Inductive Part :=
| StringPart (s : jsstring)
| ObjectPart.

Inductive Content :=
| Falsy
| Text (s : jsstring)
| Parts (ps : list Part)
| OtherValue.

Record AnyMessage := {
  any_role : jsstring;
  any_content : Content
}.

Record AnyEndEvent := {
  any_messages : option (list AnyMessage);
  any_agentId : option jsstring
}.

(** A message and an event of the declared shape, as payloads. *)
Definition typed (msg : Message) : AnyMessage :=
  {| any_role := role msg;
     any_content := match msg_content msg with
                    | Some s => Text s
                    | None => Falsy
                    end |}.

Definition typed_event (event : EndEvent) : AnyEndEvent :=
  {| any_messages := option_map (map typed) (messages event);
     any_agentId := agentId event |}.

Definition newline : jsstring := [10%N].

Definition marker : jsstring := lit "<relevant-memories>".

Module Plugin.
Section Register.

Variable Number_toString : float -> jsstring.
Variable server : list Event -> Request -> FetchOutcome.

(** [const config = configSchema.parse(api.pluginConfig)] and
    [const client = new Mem0Client(config)]. *)
Variable config : Mem0Config.

(** *** Tool [memory_recall] *)

(** [`${i + 1}. ${m.memory}${score}`], [i] counted from [i0]. *)
Fixpoint recall_lines (i0 : N) (ms : list Memory) : list jsstring :=
  match ms with
  | [] => []
  | m :: ms' =>
      (digits (i0 + 1) ++ lit ". " ++ memory m
       ++ match score m with
          | Some sc => lit " (relevance: " ++ toFixed2 Number_toString sc
                         ++ lit ")"
          | None => []
          end)
      :: recall_lines (i0 + 1) ms'
  end.

Definition memory_recall (q : jsstring) (limit : option float)
  : M ToolResult :=
  memories <- Mem0Client.search Number_toString server config q limit ;;
  match memories with
  | [] =>
      ret (text_result (lit "No relevant memories found for: " ++ [34%N]
                          ++ q ++ [34%N]))
  | _ :: _ =>
      let formatted := join newline (recall_lines 0 memories) in
      ret (text_result
             (lit "Found " ++ digits (N.of_nat (List.length memories))
                ++ lit " relevant memories:" ++ newline ++ newline
                ++ formatted))
  end.

(** *** Tool [memory_store] *)

(** [!result || !result.success] is false: the result is an object whose
    [success] is true. *)
Definition stored_ok (result : option JsonValue) : option AddResponse :=
  match result with
  | Some (JAdd r) => if success r then Some r else None
  | _ => None
  end.

(** [result.result.results.map(...)] throws when there is no
    [result.results] to read; nothing in [execute] catches it. *)
Definition memory_store (content : jsstring) (agent_id : option jsstring)
  : M ToolResult :=
  result <- Mem0Client.add server config content agent_id ;;
  match stored_ok result with
  | None => ret (text_result (lit "Failed to store memory."))
  | Some r =>
      match results r with
      | None => throw TypeError
      | Some rs =>
          let stored := join (lit ", ") (map added_memory rs) in
          ret (text_result (lit "Stored in memory: " ++ stored))
      end
  end.

(** *** Tool [memory_forget] *)

Definition memory_forget (id : jsstring) : M ToolResult :=
  deleted <- Mem0Client.delete server config id ;;
  ret (text_result
         (if deleted : bool then lit "Deleted memory: " ++ id
          else lit "Failed to delete memory: " ++ id)).

(** *** Hook [before_agent_start] *)

(** [(m.score || 0) >= config.recallThreshold]. *)
Definition relevant_memory (m : Memory) : bool :=
  geb (num_or (score m) 0) (recallThreshold config).

(** [`- ${m.memory} [score: ${m.score?.toFixed(2)}]`]. *)
Definition memory_line (m : Memory) : jsstring :=
  lit "- " ++ memory m ++ lit " [score: "
    ++ template (option_map (toFixed2 Number_toString) (score m))
    ++ lit "]".

Definition context_block (relevant : list Memory) : jsstring :=
  marker ++ newline ++ lit "Relevant facts from long-term memory:"
    ++ newline ++ join newline (map memory_line relevant)
    ++ newline ++ lit "</relevant-memories>".

Definition before_agent_start (event : StartEvent)
  : M (option HookResult) :=
  let prompt := str_or (prompt event) [] in
  if negb (str_truthy (trim prompt)) then ret None
  else
    memories <- Mem0Client.search Number_toString server config prompt
                  (Some (recallLimit config)) ;;
    let relevant := filter relevant_memory memories in
    match relevant with
    | [] => ret None
    | _ :: _ => ret (Some {| prependContext := context_block relevant |})
    end.

(** *** Hook [agent_end] *)

(** [msg.role === "user" || msg.role === "assistant"]. *)
Definition captured_role (msg : Message) : bool :=
  JS.eqb (role msg) (lit "user") || JS.eqb (role msg) (lit "assistant").

(** [msg.content || ""]. *)
Definition message_text (msg : Message) : jsstring :=
  str_or (msg_content msg) [].

(** One turn of the [for ... of] loop. *)
Definition capture (agent : option jsstring) (msg : Message) : M unit :=
  if captured_role msg then
    let text := message_text msg in
    if includes text marker then ret tt
    else if (List.length (trim text) <? 50)%nat then ret tt
    else Mem0Client.add server config text agent ;; ret tt
  else ret tt.

Fixpoint for_of {A} (xs : list A) (turn : A -> M unit) : M unit :=
  match xs with
  | [] => ret tt
  | x :: xs' => turn x ;; for_of xs' turn
  end.

Definition agent_end (event : EndEvent) : M unit :=
  let messages := match messages event with Some ms => ms | None => [] end in
  for_of messages (capture (agentId event)).

(** *** CLI: [mem0 search], [mem0 list], [mem0 forget] *)

(** [parseInt] is a built-in of the host; [opts.limit] is the string the
    command line gave for [--limit], or its default. *)
Variable parseInt : jsstring -> float.

(** [`${i + 1}. ${m.memory}${score}`] with the score in brackets. *)
Definition found_line (i : N) (m : Memory) : jsstring :=
  digits (i + 1) ++ lit ". " ++ memory m
    ++ match score m with
       | Some sc => lit " [" ++ toFixed2 Number_toString sc ++ lit "]"
       | None => []
       end.

(** [`   ID: ${m.id}\n`]. *)
Definition id_line (m : Memory) : jsstring :=
  lit "   ID: " ++ id m ++ newline.

(** The [forEach] of [mem0 search], from index [i0] on. *)
Fixpoint print_found (i0 : N) (ms : list Memory) : M unit :=
  match ms with
  | [] => ret tt
  | m :: ms' =>
      console Log (found_line i0 m) None ;;
      console Log (id_line m) None ;;
      print_found (i0 + 1) ms'
  end.

Definition mem0_search (q : jsstring) (limit : jsstring) : M unit :=
  memories <- Mem0Client.search Number_toString server config q
                (Some (parseInt limit)) ;;
  match memories with
  | [] =>
      console Log (lit "No memories found for: " ++ [34%N] ++ q ++ [34%N])
        None
  | _ :: _ =>
      console Log
        (newline ++ lit "Found " ++ digits (N.of_nat (List.length memories))
           ++ lit " memories:" ++ newline) None ;;
      print_found 0 memories
  end.

(** [`${i + 1}. ${m.memory}`]. *)
Definition listed_line (i : N) (m : Memory) : jsstring :=
  digits (i + 1) ++ lit ". " ++ memory m.

(** The [forEach] of [mem0 list], from index [i0] on. *)
Fixpoint print_listed (i0 : N) (ms : list Memory) : M unit :=
  match ms with
  | [] => ret tt
  | m :: ms' =>
      console Log (listed_line i0 m) None ;;
      console Log (id_line m) None ;;
      print_listed (i0 + 1) ms'
  end.

Definition mem0_list : M unit :=
  memories <- Mem0Client.list server config ;;
  match memories with
  | [] => console Log (lit "No memories stored yet.") None
  | _ :: _ =>
      console Log
        (newline ++ lit "Total memories: "
           ++ digits (N.of_nat (List.length memories)) ++ newline) None ;;
      print_listed 0 memories
  end.

Definition mem0_forget (id : jsstring) : M unit :=
  deleted <- Mem0Client.delete server config id ;;
  console Log
    (if deleted : bool then lit "Deleted: " ++ id
     else lit "Failed to delete: " ++ id) None.

End Register.

(** *** Hook [agent_end], on any payload *)

Section AnyPayload.

Variable server : list Event -> Request -> FetchOutcome.
Variable config : Mem0Config.

(** [msg.role === "user" || msg.role === "assistant"]. *)
Definition captured_role_any (msg : AnyMessage) : bool :=
  JS.eqb (any_role msg) (lit "user")
  || JS.eqb (any_role msg) (lit "assistant").

(** An element of an array is the marker: what [Array.prototype.includes]
    looks for. *)
Definition part_is (s : jsstring) (p : Part) : bool :=
  match p with
  | StringPart t => JS.eqb t s
  | ObjectPart => false
  end.

(** One turn of the [for ... of] loop.  On an array [text.includes] is
    [Array.prototype.includes] and [text.trim] is not a function; on
    another value that is not a string [text.includes] is not a function
    already.  Nothing in the handler catches the [TypeError]. *)
Definition capture_any (agent : option jsstring) (msg : AnyMessage)
  : M unit :=
  if captured_role_any msg then
    match any_content msg with
    | Falsy => ret tt
    | Text text =>
        if includes text marker then ret tt
        else if (List.length (trim text) <? 50)%nat then ret tt
        else Mem0Client.add server config text agent ;; ret tt
    | Parts ps =>
        if existsb (part_is marker) ps then ret tt else throw TypeError
    | OtherValue => throw TypeError
    end
  else ret tt.

Definition agent_end_any (event : AnyEndEvent) : M unit :=
  let messages :=
    match any_messages event with Some ms => ms | None => [] end in
  for_of messages (capture_any (any_agentId event)).

End AnyPayload.

(** *** [register] *)

(** What [register] hands to the host: the three tools, the three CLI
    commands, and each hook only when its switch is on. *)
Record Registration := {
  tool_memory_recall : jsstring -> option float -> M ToolResult;
  tool_memory_store : jsstring -> option jsstring -> M ToolResult;
  tool_memory_forget : jsstring -> M ToolResult;
  cli_search : jsstring -> jsstring -> M unit;
  cli_list : M unit;
  cli_forget : jsstring -> M unit;
  on_before_agent_start : option (StartEvent -> M (option HookResult));
  on_agent_end : option (AnyEndEvent -> M unit)
}.

Definition show_bool (b : bool) : jsstring :=
  if b then lit "true" else lit "false".

Definition register (parseInt : jsstring -> float)
    (Number_toString : float -> jsstring)
    (server : list Event -> Request -> FetchOutcome)
    (pluginConfig : option RawConfig) : M Registration :=
  let config := configSchema.parse pluginConfig in
  (* [new Mem0Client(config)]: [healthChecked = false] *)
  set_healthChecked false ;;
  console Log
    (lit "[memory-mem0] Plugin registered (autoRecall="
       ++ show_bool (autoRecall config) ++ lit ", autoCapture="
       ++ show_bool (autoCapture config) ++ lit ")") None ;;
  ret {| tool_memory_recall := memory_recall Number_toString server config;
         tool_memory_store := memory_store server config;
         tool_memory_forget := memory_forget server config;
         cli_search := mem0_search Number_toString server config parseInt;
         cli_list := mem0_list server config;
         cli_forget := mem0_forget server config;
         on_before_agent_start :=
           if autoRecall config
           then Some (before_agent_start Number_toString server config)
           else None;
         on_agent_end :=
           if autoCapture config
           then Some (agent_end_any server config)
           else None |}.

End Plugin.

(** ** Observing a run *)

(** A [fetch] that did not give the caller a 2xx response. *)
Definition failed (out : FetchOutcome) : bool :=
  match out with
  | Rejected => true
  | Responded r => negb (ok r)
  end.

(** A health probe that [ensureHealthy] got through without an exception:
    the server answered with a non-2xx status, or with a 2xx status and a
    JSON body other than [null]. *)
Definition answered (out : FetchOutcome) : bool :=
  match out with
  | Rejected => false
  | Responded r =>
      if ok r
      then match json r with
           | Some JNull | None => false
           | Some _ => true
           end
      else true
  end.

(** The request is the health probe: a [GET] of [<baseUrl>/health]. *)
Definition is_probe (config : Mem0Config) (req : Request) : bool :=
  match method req with
  | GET => JS.eqb (url req) (baseUrl config ++ lit "/health")
  | _ => false
  end.

(** The outcomes of the health probes of a trace, oldest first. *)
Fixpoint probes (config : Mem0Config) (t : list Event) : list FetchOutcome :=
  match t with
  | [] => []
  | Fetch req out :: t' =>
      if is_probe config req then out :: probes config t'
      else probes config t'
  | Console _ _ _ :: t' => probes config t'
  end.

(** The store calls of a trace: its [POST] requests, with their outcomes. *)
Fixpoint stores (t : list Event) : list (Request * FetchOutcome) :=
  match t with
  | [] => []
  | Fetch req out :: t' =>
      match method req with
      | POST => (req, out) :: stores t'
      | _ => stores t'
      end
  | Console _ _ _ :: t' => stores t'
  end.

(** The operations of a client, and a client put through a sequence of
    them. *)
Inductive Op :=
| OpSearch (q : jsstring) (limit : option float)
| OpAdd (content : jsstring) (agentId : option jsstring)
| OpList
| OpDelete (id : jsstring).

(** [m], started in [w], returns [v] without throwing, leaves the flag at
    [hc] and appends [evs] to the trace. *)
Definition returns {A} (m : M A) (w : World) (v : A) (hc : bool)
    (evs : list Event) : Prop :=
  m w = (Ok v, {| healthChecked := hc; trace := trace w ++ evs |}).

Section Runs.

Variable Number_toString : float -> jsstring.
Variable server : list Event -> Request -> FetchOutcome.
Variable config : Mem0Config.

(** What the server would answer to a health probe sent from [w]. *)
Definition probe_outcome (w : World) : FetchOutcome :=
  server (trace w) (Mem0Client.health_request config).

(** The world a method's own request is sent from: the one the health
    check leaves. *)
Definition after_check (w : World) : World :=
  snd (Mem0Client.ensureHealthy server config w).

Definition run_op (op : Op) : M unit :=
  match op with
  | OpSearch q limit =>
      Mem0Client.search Number_toString server config q limit ;; ret tt
  | OpAdd c a => Mem0Client.add server config c a ;; ret tt
  | OpList => Mem0Client.list server config ;; ret tt
  | OpDelete i => Mem0Client.delete server config i ;; ret tt
  end.

Fixpoint run_ops (ops : list Op) : M unit :=
  match ops with
  | [] => ret tt
  | op :: ops' => run_op op ;; run_ops ops'
  end.

End Runs.

(** The message passes both tests of the capture loop. *)
Definition substantial (t : jsstring) : bool :=
  negb (includes t marker) && negb (List.length (trim t) <? 50)%nat.

Definition captured (msg : Message) : bool :=
  Plugin.captured_role msg && substantial (Plugin.message_text msg).





(** The reading of "a result has a score of at least the threshold" that
    takes a result without a score to have none. *)
Definition scored_at_least (threshold : float) (m : Memory) : bool :=
  match score m with
  | Some s => geb s threshold
  | None => false
  end.

(** ** Further observations *)

(** Every request of a trace, oldest first. *)
Fixpoint requests (t : list Event) : list Request :=
  match t with
  | [] => []
  | Fetch req _ :: t' => req :: requests t'
  | Console _ _ _ :: t' => requests t'
  end.

(** The lines written with [console.log], oldest first. *)
Fixpoint printed (t : list Event) : list jsstring :=
  match t with
  | [] => []
  | Console Log s _ :: t' => s :: printed t'
  | _ :: t' => printed t'
  end.

(** The lines written with [console.error], oldest first. *)
Fixpoint complaints (t : list Event) : list jsstring :=
  match t with
  | [] => []
  | Console ErrorLevel s _ :: t' => s :: complaints t'
  | _ :: t' => complaints t'
  end.

(** The request an operation sends for itself. *)
Definition own_request (ns : float -> jsstring) (config : Mem0Config)
    (op : Op) : Request :=
  match op with
  | OpSearch q limit => Mem0Client.search_request ns config q limit
  | OpAdd c a => Mem0Client.add_request config c a
  | OpList => Mem0Client.list_request config
  | OpDelete i => Mem0Client.delete_request config i
  end.

(** The memories a response carries for [search] and [list]: those of a 2xx
    response whose body has a [memories] array. *)
Definition memories_of (out : FetchOutcome) : list Memory :=
  match out with
  | Rejected => []
  | Responded r =>
      if ok r
      then match json r with
           | Some (JSearch (Some ms)) => ms
           | _ => []
           end
      else []
  end.

(** The stored record a response carries for [memory_store]: that of a 2xx
    response whose body is an object with a true [success]. *)
Definition stored_of (out : FetchOutcome) : option AddResponse :=
  match out with
  | Rejected => None
  | Responded r =>
      if ok r
      then match json r with
           | Some (JAdd a) => if success a then Some a else None
           | _ => None
           end
      else None
  end.

(** [w] with [evs] appended to its trace. *)
Definition extend (w : World) (evs : list Event) : World :=
  {| healthChecked := healthChecked w; trace := trace w ++ evs |}.

(** The error a client method catches for an outcome of its own request,
    if any: the rejection of [fetch]; the [Error] thrown on a status that is
    not 2xx ([failure] is its message up to the status text); for a method
    that reads the body, the rejection of [response.json()]; for a method
    that reads a property of the body, the [TypeError] on [null]. *)
Definition caught (failure : jsstring) (reads_body reads_property : bool)
    (out : FetchOutcome) : option Err :=
  match out with
  | Rejected => Some FetchFailed
  | Responded r =>
      if ok r
      then if reads_body
           then match json r with
                | None => Some SyntaxError
                | Some JNull =>
                    if reads_property then Some TypeError else None
                | Some _ => None
                end
           else None
      else Some (Error (failure ++ statusText r))
  end.

(** What the [catch] of a method writes for a caught error. *)
Definition complaint (line : jsstring) (e : option Err) : list Event :=
  match e with
  | Some e => [Console ErrorLevel line (Some e)]
  | None => []
  end.

(** The error an operation catches for an outcome of its own request, and
    the line its [catch] writes. *)
Definition op_caught (op : Op) (out : FetchOutcome) : option Err :=
  match op with
  | OpSearch _ _ => caught (lit "Search failed: ") true true out
  | OpAdd _ _ => caught (lit "Add failed: ") true false out
  | OpList => caught (lit "List failed: ") true true out
  | OpDelete _ => caught (lit "Delete failed: ") false false out
  end.

Definition op_line (op : Op) : jsstring :=
  match op with
  | OpSearch _ _ => lit "[memory-mem0] Search error:"
  | OpAdd _ _ => lit "[memory-mem0] Add error:"
  | OpList => lit "[memory-mem0] List error:"
  | OpDelete _ => lit "[memory-mem0] Delete error:"
  end.

(** The lines the [forEach] of [mem0 search] prints, from index [i0]. *)
Fixpoint found_lines (ns : float -> jsstring) (i0 : N) (ms : list Memory)
  : list jsstring :=
  match ms with
  | [] => []
  | m :: ms' =>
      Plugin.found_line ns i0 m :: Plugin.id_line m
        :: found_lines ns (i0 + 1) ms'
  end.

(** The lines the [forEach] of [mem0 list] prints, from index [i0]. *)
Fixpoint listed_lines (i0 : N) (ms : list Memory) : list jsstring :=
  match ms with
  | [] => []
  | m :: ms' =>
      Plugin.listed_line i0 m :: Plugin.id_line m
        :: listed_lines (i0 + 1) ms'
  end.

(** ** Concrete servers and inputs *)

(** No server is listening: every [fetch] rejects. *)
Definition unreachable : list Event -> Request -> FetchOutcome :=
  fun _ _ => Rejected.

(** A server that answers every request with the same status and body. *)
Definition answering (st : N) (v : option JsonValue)
  : list Event -> Request -> FetchOutcome :=
  fun _ _ => Responded {| status := st; statusText := []; json := v |}.

(** [Number::toString] on the numbers the examples print: the integers from
    [0] up to [2^53] print as their decimal digits.  On anything else this
    stand-in prints nothing. *)
Definition integer_toString (x : float) : jsstring :=
  match Prim2SF x with
  | S754_zero _ => lit "0"
  | S754_finite false m e =>
      if (0 <=? e)%Z then digits (Z.to_N (Z.pos m * 2 ^ e)) else
      if (Z.pos m mod 2 ^ (- e) =? 0)%Z
      then digits (Z.to_N (Z.pos m / 2 ^ (- e)))
      else []
  | _ => []
  end.

Definition default_config : Mem0Config := configSchema.parse None.

(** A server that answers every request by reporting one stored memory. *)
Definition stored : FetchOutcome :=
  Responded
    {| status := 200;
       statusText := lit "OK";
       json := Some (JAdd {| success := true;
                             results :=
                               Some
                                 [ {| added_id := lit "m1";
                                      added_memory :=
                                        lit "Build uses a monorepo";
                                      added_event := lit "ADD" |} ] |}) |}.

Definition storing : list Event -> Request -> FetchOutcome :=
  fun _ _ => stored.

(** A server whose first [POST] is lost and that stores every later one. *)
Definition first_store_lost : list Event -> Request -> FetchOutcome :=
  fun history req =>
    match method req, stores history with
    | POST, [] => Rejected
    | _, _ => storing history req
    end.

Definition user_says (t : jsstring) : Message :=
  {| role := lit "user"; msg_content := Some t |}.

(** A fifty-character message, the same cut to forty-nine, and a
    fifty-character message of which six are surrounding blanks. *)
Definition fifty : jsstring :=
  lit "Deploys go out on Tuesdays after the change freeze".

Definition forty_nine : jsstring :=
  lit "Deploys go out on Tuesdays after the change freez".

Definition padded_fifty : jsstring :=
  lit "   Deploys go out on Tuesdays after the freeze.   ".

Definition recalled_context : jsstring :=
  lit "<relevant-memories> Relevant facts from long-term memory: - the build uses a monorepo </relevant-memories>".

(** A configuration object that supplies every field of [c]. *)
Definition supplied (c : Mem0Config) : RawConfig :=
  {| raw_baseUrl := Some (baseUrl c);
     raw_userId := Some (userId c);
     raw_autoCapture := Some (autoCapture c);
     raw_autoRecall := Some (autoRecall c);
     raw_recallLimit := Some (recallLimit c);
     raw_recallThreshold := Some (recallThreshold c) |}.

(** Recall everything, with no cap, for the anonymous user. *)
Definition zeroed_config : Mem0Config :=
  {| baseUrl := lit "http://mem0.internal:8420";
     userId := [];
     autoCapture := false;
     autoRecall := true;
     recallLimit := 0;
     recallThreshold := 0 |}.

(** A server that answers every request with the same search results. *)
Definition recalling (ms : list Memory) : list Event -> Request -> FetchOutcome :=
  answering 200 (Some (JSearch (Some ms))).

Definition strong_memory : Memory :=
  {| id := lit "m1"; memory := lit "Build uses a monorepo";
     score := Some 0.87%float |}.

Definition weak_memory : Memory :=
  {| id := lit "m2"; memory := lit "Lunch is at noon";
     score := Some 0.2%float |}.

Definition unscored_memory : Memory :=
  {| id := lit "m3"; memory := lit "Build uses a monorepo"; score := None |}.

(** The defaults, but with a recall threshold of [-1]. *)
Definition permissive_config : Mem0Config :=
  configSchema.parse
    (Some {| raw_baseUrl := None; raw_userId := None;
             raw_autoCapture := None; raw_autoRecall := None;
             raw_recallLimit := None;
             raw_recallThreshold := Some (-1)%float |}).

Definition build_question : StartEvent :=
  {| prompt := Some (lit "How is the build organised?") |}.

(** * Properties *)

(** ** Strings and traces *)

Lemma eqb_refl (a : jsstring) : JS.eqb a a = true.
Proof.
  induction a as [|x a IH]; simpl; [reflexivity|].
  now rewrite N.eqb_refl, IH.
Qed.

Lemma eqb_app_prefix (p a b : jsstring) :
  JS.eqb (p ++ a) (p ++ b) = JS.eqb a b.
Proof.
  induction p as [|x p IH]; simpl; [reflexivity|].
  now rewrite N.eqb_refl, IH.
Qed.

Lemma starts_with_spec (needle hay : jsstring) :
  starts_with needle hay = true <-> exists b, hay = needle ++ b.
Proof.
  revert hay; induction needle as [|x n IH]; intros hay; simpl.
  - split; [intros _; now exists hay|reflexivity].
  - destruct hay as [|y h].
    + split; [discriminate|intros [b E]; discriminate E].
    + rewrite andb_true_iff, N.eqb_eq, IH. split.
      * intros [-> [b ->]]. now exists b.
      * intros [b E]. injection E as -> ->. split; [reflexivity|now exists b].
Qed.

(** [includes] is containment of the needle as a run of code units. *)
Lemma includes_spec (hay needle : jsstring) :
  includes hay needle = true <-> exists a b, hay = a ++ needle ++ b.
Proof.
  induction hay as [|y h IH]; simpl; rewrite orb_true_iff, starts_with_spec.
  - split.
    + intros [[b E]|F]; [exists [], b; exact E|discriminate F].
    + intros (a & b & E). left. destruct a; [now exists b|discriminate E].
  - rewrite IH. split.
    + intros [[b E]|(a & b & E)]; [exists [], b; exact E|].
      exists (y :: a), b. now rewrite E.
    + intros ([|x a] & b & E); [left; now exists b|].
      right. injection E as -> ->. now exists a, b.
Qed.

Lemma probes_app config (t1 t2 : list Event) :
  probes config (t1 ++ t2) = probes config t1 ++ probes config t2.
Proof.
  induction t1 as [|[req out|l s e] t1 IH]; simpl; auto.
  destruct (is_probe config req); simpl; now rewrite IH.
Qed.

Lemma stores_app (t1 t2 : list Event) :
  stores (t1 ++ t2) = stores t1 ++ stores t2.
Proof.
  induction t1 as [|[req out|l s e] t1 IH]; simpl; auto.
  destruct (method req); simpl; now rewrite IH.
Qed.

Lemma is_probe_health config :
  is_probe config (Mem0Client.health_request config) = true.
Proof. unfold is_probe; simpl. apply eqb_refl. Qed.

Lemma is_probe_search ns config q limit :
  is_probe config (Mem0Client.search_request ns config q limit) = false.
Proof. unfold is_probe; simpl. now rewrite eqb_app_prefix. Qed.

Lemma is_probe_list config :
  is_probe config (Mem0Client.list_request config) = false.
Proof. unfold is_probe; simpl. now rewrite eqb_app_prefix. Qed.

Lemma is_probe_add config c a :
  is_probe config (Mem0Client.add_request config c a) = false.
Proof. reflexivity. Qed.

Lemma is_probe_delete config i :
  is_probe config (Mem0Client.delete_request config i) = false.
Proof. reflexivity. Qed.

(** ** What each client method does to the world *)

Lemma returns_bind {A B} (m : M A) (k : A -> M B) w v hc evs v' hc' evs' :
  returns m w v hc evs ->
  returns (k v) {| healthChecked := hc; trace := trace w ++ evs |} v' hc' evs' ->
  returns (bind m k) w v' hc' (evs ++ evs').
Proof.
  unfold returns, bind; intros -> ->; simpl. now rewrite app_assoc.
Qed.

Section ClientFacts.

Variable Number_toString : float -> jsstring.
Variable server : list Event -> Request -> FetchOutcome.
Variable config : Mem0Config.

(** The probe runs exactly when the flag is unset, and sets it exactly
    when it is answered. *)
Lemma ensureHealthy_returns w :
  exists evs,
    returns (Mem0Client.ensureHealthy server config) w tt
      (healthChecked w
       || answered (server (trace w) (Mem0Client.health_request config)))
      evs
    /\ probes config evs
       = (if healthChecked w then []
          else [server (trace w) (Mem0Client.health_request config)])
    /\ stores evs = [].
Proof.
  unfold returns, Mem0Client.ensureHealthy, bind, get_healthChecked,
    try_catch, Mem0Client.fetch.
  destruct w as [[|] t]; simpl.
  - exists []. now rewrite app_nil_r.
  - unfold bind, console, emit, set_healthChecked,
      Mem0Client.response_json, Mem0Client.data_status, ret, throw.
    destruct (server t (Mem0Client.health_request config)) as [|r] eqn:E;
      simpl.
    + rewrite <- app_assoc. eexists. split; [reflexivity|].
      simpl. now rewrite is_probe_health.
    + destruct (ok r); simpl.
      * destruct (json r) as [[|st|ms|a]|]; simpl;
          rewrite <- ?app_assoc; eexists; (split; [reflexivity|]);
          simpl; now rewrite is_probe_health.
      * rewrite <- ?app_assoc; eexists; (split; [reflexivity|]);
          simpl; now rewrite is_probe_health.
Qed.

Ltac after_health w evs0 H0 P0 S0 :=
  unfold after_check, probe_outcome;
  destruct (ensureHealthy_returns w) as (evs0 & H0 & P0 & S0);
  unfold returns in H0 |- *;
  match goal with
  | |- context [bind ?m ?k w] =>
      change (bind m k w) with
        (match m w with
         | (Ok a, w') => k a w'
         | (Throw e, w') => (Throw e, w')
         end)
  end;
  rewrite H0; cbn [snd trace healthChecked].

Ltac run_request :=
  unfold try_catch, bind, Mem0Client.fetch, Mem0Client.response_json,
    Mem0Client.data_memories, console, emit, ret, throw;
  cbn [trace healthChecked].

Ltac close_with P0 S0 :=
  cbn [trace healthChecked]; rewrite <- ?app_assoc; eexists; eexists;
  (split; [reflexivity|]);
  rewrite ?probes_app, ?stores_app, P0, S0;
  cbn [probes stores app];
  rewrite ?is_probe_search, ?is_probe_list, ?is_probe_add,
    ?is_probe_delete;
  cbn [method Mem0Client.search_request Mem0Client.list_request
         Mem0Client.add_request Mem0Client.delete_request app];
  rewrite ?app_nil_r.

Lemma search_returns q limit w :
  exists ms evs,
    returns (Mem0Client.search Number_toString server config q limit)
      w ms (healthChecked w || answered (probe_outcome server config w)) evs
    /\ probes config evs
       = (if healthChecked w then [] else [probe_outcome server config w])
    /\ stores evs = []
    /\ (failed (server (trace (after_check server config w))
                  (Mem0Client.search_request Number_toString config q limit))
        = true -> ms = []).
Proof.
  unfold Mem0Client.search. after_health w evs0 H0 P0 S0. run_request.
  destruct (server (trace w ++ evs0) _) as [|r]; cbn [failed].
  - close_with P0 S0. auto.
  - destruct (ok r); cbn [negb].
    + destruct (json r) as [[|st|[ms|]|a]|]; close_with P0 S0;
        repeat split; auto; discriminate.
    + close_with P0 S0. auto.
Qed.

Lemma list_returns w :
  exists ms evs,
    returns (Mem0Client.list server config)
      w ms (healthChecked w || answered (probe_outcome server config w)) evs
    /\ probes config evs
       = (if healthChecked w then [] else [probe_outcome server config w])
    /\ stores evs = [].
Proof.
  unfold Mem0Client.list. after_health w evs0 H0 P0 S0. run_request.
  destruct (server (trace w ++ evs0) _) as [|r].
  - close_with P0 S0. auto.
  - destruct (ok r); cbn [negb].
    + destruct (json r) as [[|st|[ms|]|a]|]; close_with P0 S0; auto.
    + close_with P0 S0. auto.
Qed.

Lemma add_returns c a w :
  let out := server (trace (after_check server config w))
               (Mem0Client.add_request config c a) in
  exists res evs,
    returns (Mem0Client.add server config c a)
      w res (healthChecked w || answered (probe_outcome server config w)) evs
    /\ probes config evs
       = (if healthChecked w then [] else [probe_outcome server config w])
    /\ stores evs = [(Mem0Client.add_request config c a, out)]
    /\ (failed out = true -> res = None)
    /\ (forall r v, out = Responded r -> ok r = true ->
                    json r = Some v -> v <> JNull -> res = Some v).
Proof.
  unfold Mem0Client.add. after_health w evs0 H0 P0 S0. run_request.
  destruct (server (trace w ++ evs0) _) as [|r]; cbn [failed].
  - close_with P0 S0. repeat split; auto; discriminate.
  - destruct (ok r) eqn:Hok; cbn [negb].
    + destruct (json r) as [[|st|ms|ar]|] eqn:J; close_with P0 S0;
        repeat split; auto; try discriminate; intros; congruence.
    + close_with P0 S0. repeat split; auto; intros; congruence.
Qed.

Lemma delete_returns i w :
  let out := server (trace (after_check server config w))
               (Mem0Client.delete_request config i) in
  exists res evs,
    returns (Mem0Client.delete server config i)
      w res (healthChecked w || answered (probe_outcome server config w)) evs
    /\ probes config evs
       = (if healthChecked w then [] else [probe_outcome server config w])
    /\ stores evs = []
    /\ (failed out = true ->
        res = false /\
        exists pre e,
          evs = pre ++ [Console ErrorLevel
                          (lit "[memory-mem0] Delete error:") (Some e)])
    /\ (failed out = false -> res = true).
Proof.
  unfold Mem0Client.delete. after_health w evs0 H0 P0 S0. run_request.
  destruct (server (trace w ++ evs0) _) as [|r]; cbn [failed].
  - close_with P0 S0. repeat split; auto; try discriminate.
    eexists (evs0 ++ [_]), _. now rewrite <- app_assoc.
  - destruct (ok r); cbn [negb].
    + close_with P0 S0. repeat split; auto; discriminate.
    + close_with P0 S0. repeat split; auto; try discriminate.
      eexists (evs0 ++ [_]), _. now rewrite <- app_assoc.
Qed.

End ClientFacts.

(** ** The health probe *)

Lemma run_op_returns ns server config op w :
  exists evs,
    returns (run_op ns server config op) w tt
      (healthChecked w || answered (probe_outcome server config w)) evs
    /\ probes config evs
       = (if healthChecked w then [] else [probe_outcome server config w]).
Proof.
  destruct op as [q limit|c a| |i]; unfold run_op.
  - destruct (search_returns ns server config q limit w)
      as (v & evs & H & P & _).
    exists evs. split; [|exact P].
    unfold returns in *. unfold bind. now rewrite H.
  - destruct (add_returns server config c a w) as (v & evs & H & P & _).
    exists evs. split; [|exact P].
    unfold returns in *. unfold bind. now rewrite H.
  - destruct (list_returns server config w) as (v & evs & H & P & _).
    exists evs. split; [|exact P].
    unfold returns in *. unfold bind. now rewrite H.
  - destruct (delete_returns server config i w) as (v & evs & H & P & _).
    exists evs. split; [|exact P].
    unfold returns in *. unfold bind. now rewrite H.
Qed.

(** C1, as the code has it.  Whatever the server does, an operation never
    throws; on a checked client it sends no probe and leaves the client
    checked; on an unchecked client it sends exactly one probe, and the
    client is checked after it exactly when that probe was answered: with a
    status that is not 2xx, or with a 2xx status and a JSON body other than
    [null].  So in a run of operations from an unchecked client every
    operation probes again until a probe is answered: an answered probe is
    the last probe of the run, the run ends checked exactly when one of its
    probes was answered, and a run that ends unchecked has probed once for
    each of its operations.  A run from a checked client sends no probe and
    ends checked. *)
Theorem health_probe_until_answered :
  forall ns server config,
    (forall op w,
     exists evs,
       returns (run_op ns server config op) w tt
         (healthChecked w || answered (probe_outcome server config w)) evs
       /\ probes config evs
          = (if healthChecked w then []
             else [probe_outcome server config w]))
    /\ forall ops w,
       exists evs hc,
         returns (run_ops ns server config ops) w tt hc evs
         /\ (List.length (probes config evs) <= List.length ops)%nat
         /\ (healthChecked w = true ->
             probes config evs = [] /\ hc = true)
         /\ (healthChecked w = false ->
             hc = existsb answered (probes config evs)
             /\ (forall pre out post,
                   probes config evs = pre ++ out :: post ->
                   answered out = true -> post = [])
             /\ (hc = false ->
                 List.length (probes config evs) = List.length ops)).
Proof.
  intros ns server config. split; [apply run_op_returns|].
  intros ops; induction ops as [|op ops IH]; intros w.
  - exists [], (healthChecked w). unfold returns; simpl.
    rewrite app_nil_r. destruct w as [hc t]; simpl.
    repeat split; auto.
    intros pre out post E. now destruct pre.
  - destruct (run_op_returns ns server config op w) as (evs1 & H1 & P1).
    specialize (IH {| healthChecked :=
                        healthChecked w
                        || answered (probe_outcome server config w);
                      trace := trace w ++ evs1 |}).
    destruct IH as (evs2 & hc & H2 & L2 & T2 & F2).
    cbn [healthChecked trace] in *.
    exists (evs1 ++ evs2), hc. split.
    { cbn [run_ops]. eapply returns_bind; eauto. }
    rewrite probes_app, P1.
    destruct (healthChecked w) eqn:Hw; cbn [orb] in *.
    + destruct (T2 eq_refl) as [-> ->]. simpl.
      repeat split; auto; try lia; discriminate.
    + destruct (answered (probe_outcome server config w)) eqn:Ha.
      * destruct (T2 eq_refl) as [E2 ->]. rewrite E2 in *. simpl.
        rewrite Ha. repeat split; auto; try lia; try discriminate.
        intros [|x pre] out post E _; simpl in E.
        -- now injection E as _ <-.
        -- injection E as _ E. now destruct pre.
      * destruct (F2 eq_refl) as (-> & N2 & K2). simpl. rewrite Ha. simpl.
        repeat split; auto; try lia; try discriminate.
        intros [|x pre] out post E A; simpl in E.
        -- injection E as <- _. congruence.
        -- injection E as _ E. eauto.
Qed.

(** C1, as the claim states it, fails: with no server listening, a search
    followed by a list probes twice, and the flag is still unset. *)
Lemma health_probe_repeated_when_unreachable :
  probes default_config
    (trace (snd (run_ops integer_toString unreachable default_config
                   [OpSearch (lit "build") None; OpList] fresh)))
  = [Rejected; Rejected]
  /\ healthChecked
       (snd (run_ops integer_toString unreachable default_config
               [OpSearch (lit "build") None; OpList] fresh))
     = false.
Proof. split; vm_compute; reflexivity. Qed.

(** A server that is up but unwell answers the first probe with a 503: one
    probe for three operations. *)
Example health_probe_once_when_answered :
  probes default_config
    (trace (snd (run_ops integer_toString (answering 503 None) default_config
                   [OpSearch (lit "build") None;
                    OpAdd (lit "Build uses a monorepo") None;
                    OpDelete (lit "m1")] fresh)))
  = [answering 503 None [] (Mem0Client.health_request default_config)]
  /\ healthChecked
       (snd (run_ops integer_toString (answering 503 None) default_config
               [OpSearch (lit "build") None;
                OpAdd (lit "Build uses a monorepo") None;
                OpDelete (lit "m1")] fresh))
     = true.
Proof. split; vm_compute; reflexivity. Qed.

(** ** Failures of [search] and [delete] *)

Lemma ok_status (r : Response) :
  ok r = true <-> (200 <= status r <= 299)%N.
Proof.
  unfold ok. rewrite andb_true_iff, !N.leb_le. tauto.
Qed.

(** C5.  If the [fetch] of a search rejects, or resolves to a response
    whose status is not 2xx, [search] returns the empty list and does not
    throw. *)
Theorem search_failure_is_empty :
  forall ns server config q limit w,
    failed (server (trace (after_check server config w))
              (Mem0Client.search_request ns config q limit)) = true ->
    fst (Mem0Client.search ns server config q limit w) = Ok [].
Proof.
  intros ns server config q limit w F.
  destruct (search_returns ns server config q limit w)
    as (ms & evs & H & _ & _ & E).
  unfold returns in H. rewrite H. simpl. now rewrite (E F).
Qed.

Lemma search_failure_is_empty_witness :
  failed (unreachable
            (trace (after_check unreachable default_config fresh))
            (Mem0Client.search_request integer_toString default_config
               (lit "build system") None)) = true
  /\ fst (Mem0Client.search integer_toString unreachable default_config
            (lit "build system") None fresh) = Ok [].
Proof.
  split; [reflexivity|].
  apply (search_failure_is_empty integer_toString unreachable default_config
           (lit "build system") None fresh).
  reflexivity.
Defined.

(** C6.  [delete] never throws.  If its [fetch] rejects or resolves to a
    response whose status is not 2xx, it returns [false] and the last thing
    it did was to log [[memory-mem0] Delete error:] with the error, through
    [console.error]; on a 2xx response it returns [true]. *)
Theorem delete_reports_failure :
  forall server config i w,
    let out := server (trace (after_check server config w))
                 (Mem0Client.delete_request config i) in
    (failed out = true ->
     exists w' pre e,
       Mem0Client.delete server config i w = (Ok false, w')
       /\ trace w' = pre ++ [Console ErrorLevel
                               (lit "[memory-mem0] Delete error:") (Some e)])
    /\ (forall r, out = Responded r -> (200 <= status r <= 299)%N ->
        exists w', Mem0Client.delete server config i w = (Ok true, w')).
Proof.
  intros server config i w out.
  destruct (delete_returns server config i w)
    as (res & evs & H & _ & _ & F & T).
  fold out in F, T. unfold returns in H. split.
  - intros Hf. destruct (F Hf) as (-> & pre & e & ->).
    eexists _, (trace w ++ pre), e. split; [exact H|].
    simpl. now rewrite app_assoc.
  - intros r E Hs. eexists. rewrite H. f_equal. f_equal. apply T.
    rewrite E. simpl. apply ok_status in Hs. now rewrite Hs.
Qed.

(** ** Storing *)

Lemma join_singleton (sep x : jsstring) : join sep [x] = x.
Proof. reflexivity. Qed.

(** C8.  [memory_store] called without an agent id issues exactly one
    [POST], to [<baseUrl>/memories], whose body has the content and the
    configured user id and no [metadata] (so no [agent_id]).  When the
    server answers that request with a 2xx response whose body reports
    success and carries the stored memories, the tool returns the text
    [Stored in memory: ] followed by the stored texts the server returned,
    joined by a comma and a space: the one text itself when there is
    one. *)
Theorem store_without_agent :
  forall server config text w,
    let req := {| method := POST;
                  url := baseUrl config ++ lit "/memories";
                  query := [];
                  headers := [(lit "Content-Type", lit "application/json")];
                  timeout := None;
                  body := Some (JObject
                                  [(lit "content", JString text);
                                   (lit "user_id",
                                    JString (userId config))]) |} in
    let out := server (trace (after_check server config w)) req in
    stores (trace (snd (Plugin.memory_store server config text None w)))
    = stores (trace w) ++ [(req, out)]
    /\ (forall r a ms,
          out = Responded r -> (200 <= status r <= 299)%N ->
          json r = Some (JAdd a) -> success a = true ->
          results a = Some ms ->
          fst (Plugin.memory_store server config text None w)
          = Ok (text_result
                  (lit "Stored in memory: "
                     ++ join (lit ", ") (map added_memory ms)))
          /\ forall m, ms = [m] ->
               fst (Plugin.memory_store server config text None w)
               = Ok (text_result
                       (lit "Stored in memory: " ++ added_memory m))).
Proof.
  intros server config text w req out.
  destruct (add_returns server config text None w)
    as (res & evs & H & _ & S & _ & T).
  change (Mem0Client.add_request config text None) with req in S, T.
  fold out in S, T.
  unfold returns in H. unfold Plugin.memory_store, bind. rewrite H.
  split.
  - assert (W : forall (X : M ToolResult) w1,
              (X = ret (text_result (lit "Failed to store memory."))
               \/ X = throw TypeError
               \/ exists t, X = ret t) ->
              snd (X w1) = w1).
    { intros X w1 [->|[->|[t ->]]]; reflexivity. }
    rewrite W.
    + cbn [trace]. now rewrite stores_app, S.
    + destruct (Plugin.stored_ok res) as [ar|]; [|now left].
      destruct (results ar); [right; right; eauto|right; now left].
  - intros r a ms E Hs J Ha Hr. apply ok_status in Hs.
    rewrite (T r (JAdd a) E Hs J) by discriminate.
    unfold Plugin.stored_ok. rewrite Ha, Hr. unfold ret. cbn [fst].
    split; [reflexivity|]. intros m ->. reflexivity.
Qed.

(** A store on a server that reports one stored memory. *)
Example store_reports_the_stored_text :
  Plugin.memory_store storing default_config
    (lit "Remember: the build uses a monorepo") None
    {| healthChecked := true; trace := [] |}
  = (Ok (text_result (lit "Stored in memory: Build uses a monorepo")),
     {| healthChecked := true;
        trace := [Fetch (Mem0Client.add_request default_config
                           (lit "Remember: the build uses a monorepo")
                           None)
                    stored] |}).
Proof. vm_compute. reflexivity. Qed.

(** ** Post-run capture *)

Lemma trim_start_length (s : jsstring) :
  (List.length (trim_start s) <= List.length s)%nat.
Proof.
  induction s as [|c s IH]; simpl; [lia|].
  destruct (is_space c); simpl; lia.
Qed.

Lemma trim_length (s : jsstring) :
  (List.length (trim s) <= List.length s)%nat.
Proof.
  unfold trim, trim_end. rewrite length_rev.
  etransitivity; [apply trim_start_length|]. rewrite length_rev.
  apply trim_start_length.
Qed.

Section CaptureFacts.

Variable server : list Event -> Request -> FetchOutcome.
Variable config : Mem0Config.

(** A message that is skipped leaves the world as it was. *)
Lemma capture_skips agent msg w :
  captured msg = false ->
  Plugin.capture server config agent msg w = (Ok tt, w).
Proof.
  unfold captured, substantial, Plugin.capture.
  destruct (Plugin.captured_role msg); [|reflexivity].
  destruct (includes (Plugin.message_text msg) marker); [reflexivity|].
  destruct (List.length (trim (Plugin.message_text msg)) <? 50)%nat;
    [reflexivity|discriminate].
Qed.

(** A message that is not skipped costs one call of [add], whatever
    becomes of it. *)
Lemma capture_stores agent msg w :
  captured msg = true ->
  exists hc evs,
    returns (Plugin.capture server config agent msg) w tt hc evs
    /\ stores evs
       = [(Mem0Client.add_request config (Plugin.message_text msg) agent,
           server (trace (after_check server config w))
             (Mem0Client.add_request config (Plugin.message_text msg)
                agent))].
Proof.
  unfold captured, substantial, Plugin.capture.
  destruct (Plugin.captured_role msg); [|discriminate].
  destruct (includes (Plugin.message_text msg) marker); [discriminate|].
  destruct (List.length (trim (Plugin.message_text msg)) <? 50)%nat;
    [discriminate|]. intros _.
  destruct (add_returns server config (Plugin.message_text msg) agent w)
    as (res & evs & H & _ & S & _).
  exists (healthChecked w || answered (probe_outcome server config w)), evs.
  split; [|exact S].
  unfold returns in *. unfold bind. now rewrite H.
Qed.

Lemma for_of_capture agent msgs w :
  exists hc evs,
    returns (Plugin.for_of msgs (Plugin.capture server config agent))
      w tt hc evs
    /\ map fst (stores evs)
       = map (fun m => Mem0Client.add_request config
                         (Plugin.message_text m) agent)
           (filter captured msgs).
Proof.
  revert w; induction msgs as [|msg msgs IH]; intros w.
  - exists (healthChecked w), []. unfold returns; simpl.
    rewrite app_nil_r. now destruct w.
  - cbn [Plugin.for_of filter].
    destruct (captured msg) eqn:C.
    + destruct (capture_stores agent msg w C) as (hc1 & evs1 & H1 & S1).
      destruct (IH {| healthChecked := hc1; trace := trace w ++ evs1 |})
        as (hc2 & evs2 & H2 & S2).
      exists hc2, (evs1 ++ evs2). split.
      * eapply returns_bind; eauto.
      * rewrite stores_app, map_app, S1, S2. reflexivity.
    + destruct (IH w) as (hc2 & evs2 & H2 & S2).
      exists hc2, evs2. split; [|exact S2].
      unfold returns in *. unfold bind.
      now rewrite (capture_skips agent msg w C).
Qed.

Lemma for_of_skip agent pre msg post w :
  captured msg = false ->
  Plugin.for_of (pre ++ msg :: post) (Plugin.capture server config agent) w
  = Plugin.for_of (pre ++ post) (Plugin.capture server config agent) w.
Proof.
  intros C. revert w; induction pre as [|x pre IH]; intros w.
  - cbn [app Plugin.for_of]. unfold bind.
    now rewrite (capture_skips agent msg w C).
  - cbn [app Plugin.for_of]. unfold bind.
    destruct (Plugin.capture server config agent x w) as [[[]|e] w1];
      [apply IH|reflexivity].
Qed.

End CaptureFacts.

(** C2, as the claim states it, fails: a user message of fifty characters
    without the marker, three leading and three trailing blanks among them,
    is not stored. *)
Lemma padded_fifty_is_skipped :
  List.length padded_fifty = 50%nat
  /\ includes padded_fifty marker = false
  /\ stores (trace (snd (Plugin.agent_end storing default_config
                           {| messages := Some [user_says padded_fifty];
                              agentId := Some (lit "main") |} fresh)))
     = [].
Proof. repeat split; vm_compute; reflexivity. Qed.

(** C2, as the code has it.  For a user or assistant message, the length
    that counts is that of the text with its surrounding white space
    trimmed: under 50 the turn does nothing, and so it does for every text
    that is itself shorter than 50; at 50 or more, without the marker, the
    turn never throws and issues exactly one store call, for that text and
    the run's agent id. *)
Theorem capture_length_threshold :
  forall server config agent msg w,
    Plugin.captured_role msg = true ->
    ((List.length (trim (Plugin.message_text msg)) < 50)%nat ->
     Plugin.capture server config agent msg w = (Ok tt, w))
    /\ ((List.length (Plugin.message_text msg) < 50)%nat ->
        Plugin.capture server config agent msg w = (Ok tt, w))
    /\ ((50 <= List.length (trim (Plugin.message_text msg)))%nat ->
        includes (Plugin.message_text msg) marker = false ->
        exists hc evs out,
          returns (Plugin.capture server config agent msg) w tt hc evs
          /\ stores evs
             = [(Mem0Client.add_request config (Plugin.message_text msg)
                   agent, out)]).
Proof.
  intros server config agent msg w R.
  assert (short : (List.length (trim (Plugin.message_text msg)) < 50)%nat ->
                  Plugin.capture server config agent msg w = (Ok tt, w)).
  { intros L. apply capture_skips. unfold captured, substantial.
    apply Nat.ltb_lt in L. rewrite L. now rewrite !andb_false_r. }
  split; [exact short|]. split.
  - intros L. apply short.
    pose proof (trim_length (Plugin.message_text msg)). lia.
  - intros L I.
    destruct (capture_stores server config agent msg w) as (hc & evs & H & S).
    { unfold captured, substantial. rewrite R, I.
      apply Nat.ltb_ge in L. now rewrite L. }
    eauto.
Qed.

Lemma capture_length_threshold_witness :
  Plugin.captured_role (user_says fifty) = true
  /\ Plugin.capture storing default_config (Some (lit "main"))
       (user_says forty_nine) fresh = (Ok tt, fresh)
  /\ List.length
       (stores (trace (snd (Plugin.capture storing default_config
                              (Some (lit "main")) (user_says fifty) fresh))))
     = 1%nat.
Proof.
  split; [reflexivity|]. split.
  - apply (capture_length_threshold storing default_config
             (Some (lit "main")) (user_says forty_nine) fresh);
      [reflexivity|vm_compute; lia].
  - destruct (capture_length_threshold storing default_config
                (Some (lit "main")) (user_says fifty) fresh eq_refl)
      as (_ & _ & K).
    destruct K as (hc & evs & out & H & S);
      [vm_compute; lia|reflexivity|].
    unfold returns in H. rewrite H. cbn [snd trace fresh app].
    rewrite S. reflexivity.
Defined.

(** C4.  A message whose text contains [<relevant-memories>] is skipped
    whatever its role and its length: its turn of the loop leaves the world
    untouched, and the whole capture runs exactly as it would on the
    conversation without that message. *)
Theorem recalled_context_is_never_stored :
  forall server config agent pre msg post w before after,
    Plugin.message_text msg = before ++ marker ++ after ->
    Plugin.capture server config agent msg w = (Ok tt, w)
    /\ Plugin.agent_end server config
         {| messages := Some (pre ++ msg :: post); agentId := agent |} w
       = Plugin.agent_end server config
           {| messages := Some (pre ++ post); agentId := agent |} w.
Proof.
  intros server config agent pre msg post w before after E.
  assert (I : includes (Plugin.message_text msg) marker = true)
    by (apply includes_spec; eauto).
  assert (C : captured msg = false).
  { unfold captured, substantial. rewrite I. simpl. apply andb_false_r. }
  split.
  - now apply capture_skips.
  - unfold Plugin.agent_end; cbn [messages agentId]. now apply for_of_skip.
Qed.

Lemma recalled_context_is_never_stored_witness :
  Plugin.message_text (user_says recalled_context)
  = [] ++ marker
       ++ lit " Relevant facts from long-term memory: - the build uses a monorepo </relevant-memories>"
  /\ stores (trace (snd (Plugin.agent_end storing default_config
                           {| messages :=
                                Some [user_says recalled_context;
                                      user_says fifty];
                              agentId := None |} fresh)))
     = stores (trace (snd (Plugin.agent_end storing default_config
                             {| messages := Some [user_says fifty];
                                agentId := None |} fresh))).
Proof.
  split; [reflexivity|].
  destruct (recalled_context_is_never_stored storing default_config None
              [] (user_says recalled_context) [user_says fifty] fresh []
              (lit " Relevant facts from long-term memory: - the build uses a monorepo </relevant-memories>")
              eq_refl) as [_ E].
  cbn [app] in E. rewrite E. reflexivity.
Defined.

(** The handler on payloads of the declared shape is the handler of the
    typed events. *)
Lemma capture_any_typed server config agent msg w :
  Plugin.capture_any server config agent (typed msg) w
  = Plugin.capture server config agent msg w.
Proof.
  unfold Plugin.capture_any, Plugin.capture, Plugin.captured_role_any,
    Plugin.captured_role, Plugin.message_text, typed.
  cbn [any_role any_content].
  destruct (JS.eqb (role msg) (lit "user")
            || JS.eqb (role msg) (lit "assistant")); [|reflexivity].
  destruct (msg_content msg) as [[|c t]|]; reflexivity.
Qed.

Lemma agent_end_any_typed server config event w :
  Plugin.agent_end_any server config (typed_event event) w
  = Plugin.agent_end server config event w.
Proof.
  unfold Plugin.agent_end_any, Plugin.agent_end, typed_event.
  cbn [any_messages any_agentId].
  destruct (messages event) as [ms|]; [|reflexivity]. cbn [option_map].
  revert w; induction ms as [|m ms IH]; intros w; [reflexivity|].
  cbn [map Plugin.for_of]. unfold bind. rewrite capture_any_typed.
  destruct (Plugin.capture server config (agentId event) m w)
    as [[[]|e] w1]; [apply IH|reflexivity].
Qed.

Section AnyCaptureFacts.

Variable server : list Event -> Request -> FetchOutcome.
Variable config : Mem0Config.




End AnyCaptureFacts.



(** The first store of a run is lost; the second message is stored all the
    same. *)
Example second_message_stored_after_lost_first :
  map snd
    (stores (trace (snd (Plugin.agent_end first_store_lost default_config
                           {| messages :=
                                Some [user_says fifty;
                                      user_says forty_nine;
                                      user_says fifty];
                              agentId := Some (lit "main") |} fresh))))
  = [Rejected; stored].
Proof. vm_compute. reflexivity. Qed.

(** ** Numbers *)

Lemma SFeqb_finite_refl s m e :
  SFeqb (S754_finite s m e) (S754_finite s m e) = true.
Proof.
  unfold SFeqb, SFcompare.
  destruct s; rewrite Z.compare_refl, Pos.compare_cont_refl; reflexivity.
Qed.

(** The falsy numbers are [NaN] and the two zeros. *)
Lemma falsy_number (x : float) :
  num_truthy x = false ->
  Prim2SF x = S754_nan \/ exists b, Prim2SF x = S754_zero b.
Proof.
  unfold num_truthy, PrimFloat.is_nan.
  rewrite !FloatAxioms.eqb_spec.
  change (Prim2SF 0) with (S754_zero false).
  destruct (Prim2SF x) as [b|b| |s m e].
  - intros _. right. now exists b.
  - destruct b; cbn; discriminate.
  - intros _. now left.
  - rewrite SFeqb_finite_refl. destruct s; cbn; discriminate.
Qed.

(** Neither [NaN] nor a zero is at or above a positive number. *)
Lemma positive_above_falsy (t x : float) :
  PrimFloat.ltb 0 t = true ->
  Prim2SF x = S754_nan \/ (exists b, Prim2SF x = S754_zero b) ->
  geb x t = false.
Proof.
  unfold geb. rewrite FloatAxioms.ltb_spec, FloatAxioms.leb_spec.
  change (Prim2SF 0) with (S754_zero false).
  intros P [->|[b ->]]; destruct (Prim2SF t) as [[|]|[|]| |[|] m e];
    cbv in P |- *; congruence.
Qed.

Lemma geb_zero_positive (t : float) :
  PrimFloat.ltb 0 t = true -> geb 0 t = false.
Proof.
  intros P. apply positive_above_falsy; [exact P|].
  right. now exists false.
Qed.

(** For a positive threshold the filter of the hook keeps exactly the
    results that have a score at or above it. *)
Lemma relevant_positive config m :
  PrimFloat.ltb 0 (recallThreshold config) = true ->
  Plugin.relevant_memory config m
  = scored_at_least (recallThreshold config) m.
Proof.
  intros P. unfold Plugin.relevant_memory, scored_at_least, num_or.
  destruct (score m) as [s|]; [|now apply geb_zero_positive].
  destruct (num_truthy s) eqn:T; [reflexivity|].
  rewrite (geb_zero_positive _ P). symmetry.
  apply positive_above_falsy; [exact P|now apply falsy_number].
Qed.

(** ** Configuration *)

(** C9, as the claim states it, fails: [false] is a falsy value, and a
    supplied [autoCapture] of [false] is kept, against the default
    [true]. *)
Lemma supplied_false_is_kept :
  raw_autoCapture (supplied zeroed_config) = Some false
  /\ autoCapture (configSchema.parse None) = true
  /\ autoCapture (configSchema.parse (Some (supplied zeroed_config)))
     = false.
Proof. repeat split. Qed.

(** C9, as the code has it.  For the base URL, the user id, the recall
    limit and the recall threshold a supplied value that is falsy (the
    empty string; [0], [-0] or [NaN]) is replaced by the default just as a
    missing field is: a [recallThreshold] of [0] becomes [0.4], a
    [recallLimit] of [0] becomes [5], an empty [userId] becomes
    [openclaw].  The two switches are the exception: each is off exactly
    when [false] is supplied for it, so a supplied [false] is kept.  There
    is a configuration with every field supplied that parsing does not give
    back. *)
Theorem parse_replaces_falsy :
  (forall v x,
     raw_recallThreshold v = Some x -> num_truthy x = false ->
     recallThreshold (configSchema.parse (Some v)) = 0.4%float)
  /\ (forall v x,
        raw_recallLimit v = Some x -> num_truthy x = false ->
        recallLimit (configSchema.parse (Some v)) = 5%float)
  /\ (forall v,
        raw_userId v = Some [] ->
        userId (configSchema.parse (Some v)) = lit "openclaw")
  /\ (forall v,
        raw_baseUrl v = Some [] ->
        baseUrl (configSchema.parse (Some v)) = lit "http://127.0.0.1:8420")
  /\ num_truthy 0 = false
  /\ (forall v,
        autoCapture (configSchema.parse (Some v)) = false
        <-> raw_autoCapture v = Some false)
  /\ (forall v,
        autoRecall (configSchema.parse (Some v)) = false
        <-> raw_autoRecall v = Some false)
  /\ configSchema.parse (Some (supplied zeroed_config))
     = {| baseUrl := baseUrl zeroed_config;
          userId := lit "openclaw";
          autoCapture := autoCapture zeroed_config;
          autoRecall := autoRecall zeroed_config;
          recallLimit := 5;
          recallThreshold := 0.4 |}
  /\ configSchema.parse (Some (supplied zeroed_config)) <> zeroed_config.
Proof.
  unfold configSchema.parse;
    cbn [recallThreshold recallLimit userId baseUrl autoCapture autoRecall].
  split; [|split; [|split; [|split; [|split; [|split; [|split; [|split]]]]]]].
  - intros v x -> T. unfold num_or. now rewrite T.
  - intros v x -> T. unfold num_or. now rewrite T.
  - now intros v ->.
  - now intros v ->.
  - reflexivity.
  - intros v. unfold not_false.
    destruct (raw_autoCapture v) as [[|]|]; split; congruence.
  - intros v. unfold not_false.
    destruct (raw_autoRecall v) as [[|]|]; split; congruence.
  - reflexivity.
  - intros E. apply (f_equal userId) in E. discriminate E.
Qed.

(** ** Pre-run recall *)

Section RecallFacts.

Variable Number_toString : float -> jsstring.
Variable server : list Event -> Request -> FetchOutcome.
Variable config : Mem0Config.

Lemma before_agent_start_blank event w :
  str_truthy (trim (str_or (prompt event) [])) = false ->
  Plugin.before_agent_start Number_toString server config event w
  = (Ok None, w).
Proof.
  intros B. unfold Plugin.before_agent_start. now rewrite B.
Qed.

(** On a prompt that is not blank the hook searches once, with the prompt
    and the configured limit, and injects the results its filter keeps,
    if any. *)
Lemma before_agent_start_nonblank event w :
  str_truthy (trim (str_or (prompt event) [])) = true ->
  exists ms w',
    Mem0Client.search Number_toString server config
      (str_or (prompt event) []) (Some (recallLimit config)) w
    = (Ok ms, w')
    /\ Plugin.before_agent_start Number_toString server config event w
       = (Ok match filter (Plugin.relevant_memory config) ms with
             | [] => None
             | _ :: _ =>
                 Some {| prependContext :=
                           Plugin.context_block Number_toString
                             (filter (Plugin.relevant_memory config) ms) |}
             end, w').
Proof.
  intros B. unfold Plugin.before_agent_start. rewrite B. cbn [negb].
  destruct (search_returns Number_toString server config
              (str_or (prompt event) []) (Some (recallLimit config)) w)
    as (ms & evs & H & _).
  unfold returns in H. exists ms. eexists. split; [exact H|].
  unfold bind. rewrite H.
  now destruct (filter (Plugin.relevant_memory config) ms).
Qed.

Lemma filter_nonempty {A} (f : A -> bool) (xs : list A) :
  filter f xs <> [] <-> exists x, In x xs /\ f x = true.
Proof.
  split.
  - destruct (filter f xs) as [|x l] eqn:E; [congruence|]. intros _.
    exists x. apply filter_In. rewrite E. now left.
  - intros (x & I & F) E.
    assert (K : In x (filter f xs)) by (apply filter_In; auto).
    now rewrite E in K.
Qed.

End RecallFacts.

(** C3, as the claim states it, fails: with a threshold of [-1] and one
    search result that has no score, no result has a score at or above the
    threshold, and yet the hook injects a block, with that result in it. *)
Lemma unscored_result_recalled_below_zero :
  fst (Mem0Client.search integer_toString (recalling [unscored_memory])
         permissive_config (lit "How is the build organised?")
         (Some (recallLimit permissive_config)) fresh)
  = Ok [unscored_memory]
  /\ existsb (scored_at_least (recallThreshold permissive_config))
       [unscored_memory] = false
  /\ fst (Plugin.before_agent_start integer_toString
            (recalling [unscored_memory]) permissive_config
            build_question fresh)
     = Ok (Some {| prependContext :=
                     lit "<relevant-memories>" ++ newline
                       ++ lit "Relevant facts from long-term memory:"
                       ++ newline
                       ++ lit "- Build uses a monorepo [score: undefined]"
                       ++ newline ++ lit "</relevant-memories>" |}).
Proof. repeat split; vm_compute; reflexivity. Qed.

(** C3, as the code has it.  On a prompt that is not blank the hook never
    throws and searches once; it returns a context block if and only if
    some search result is at or above the threshold when a result without a
    score, or with a score of [0] or [NaN], counts as [0]; the block lists
    exactly the results the filter keeps.  For a threshold above [0] that
    is: if and only if some result has a score at or above the threshold.
    With a threshold of [0.4] and two results scored [0.87] and [0.2], the
    block has the one line of the first. *)
Theorem recall_injects_relevant_results :
  forall ns server config event w,
    str_truthy (trim (str_or (prompt event) [])) = true ->
    exists ms w',
      Mem0Client.search ns server config (str_or (prompt event) [])
        (Some (recallLimit config)) w = (Ok ms, w')
      /\ snd (Plugin.before_agent_start ns server config event w) = w'
      /\ (exists res,
            fst (Plugin.before_agent_start ns server config event w)
            = Ok res)
      /\ ((exists r,
             fst (Plugin.before_agent_start ns server config event w)
             = Ok (Some r))
          <-> exists m,
                In m ms
                /\ geb (num_or (score m) 0) (recallThreshold config) = true)
      /\ (forall r,
            fst (Plugin.before_agent_start ns server config event w)
            = Ok (Some r) ->
            prependContext r
            = Plugin.context_block ns
                (filter (Plugin.relevant_memory config) ms))
      /\ (PrimFloat.ltb 0 (recallThreshold config) = true ->
          ((exists r,
              fst (Plugin.before_agent_start ns server config event w)
              = Ok (Some r))
           <-> exists m,
                 In m ms
                 /\ scored_at_least (recallThreshold config) m = true))
      /\ (forall m1 m2,
            recallThreshold config = 0.4%float ->
            ms = [m1; m2] ->
            score m1 = Some 0.87%float ->
            score m2 = Some 0.2%float ->
            fst (Plugin.before_agent_start ns server config event w)
            = Ok (Some {| prependContext :=
                            lit "<relevant-memories>" ++ newline
                              ++ lit "Relevant facts from long-term memory:"
                              ++ newline
                              ++ (lit "- " ++ memory m1
                                    ++ lit " [score: 0.87]")
                              ++ newline ++ lit "</relevant-memories>" |})).
Proof.
  intros ns server config event w B.
  destruct (before_agent_start_nonblank ns server config event w B)
    as (ms & w' & S & H).
  exists ms, w'. rewrite H. cbn [fst snd].
  assert (I : (exists r,
                 Ok match filter (Plugin.relevant_memory config) ms with
                    | [] => None
                    | _ :: _ =>
                        Some {| prependContext :=
                                  Plugin.context_block ns
                                    (filter (Plugin.relevant_memory config)
                                       ms) |}
                    end = Ok (Some r))
              <-> exists m, In m ms /\ Plugin.relevant_memory config m = true).
  { rewrite <- filter_nonempty.
    destruct (filter (Plugin.relevant_memory config) ms); split.
    - intros [r E]; discriminate.
    - congruence.
    - discriminate.
    - eauto. }
  split; [exact S|]. split; [reflexivity|]. split; [eauto|].
  split; [exact I|]. split; [|split].
  - intros r E.
    destruct (filter (Plugin.relevant_memory config) ms);
      [discriminate|]. now injection E as <-.
  - intros P. rewrite I. split; intros (m & Hm & R); exists m;
      (split; [exact Hm|]); [rewrite <- (relevant_positive config m P)
                            |rewrite (relevant_positive config m P)]; exact R.
  - intros m1 m2 T -> S1 S2. cbn [filter].
    assert (R1 : Plugin.relevant_memory config m1 = true).
    { unfold Plugin.relevant_memory. rewrite T, S1. reflexivity. }
    assert (R2 : Plugin.relevant_memory config m2 = false).
    { unfold Plugin.relevant_memory. rewrite T, S2. reflexivity. }
    rewrite R1, R2.
    unfold Plugin.context_block, Plugin.memory_line; cbn [map join].
    rewrite S1. reflexivity.
Qed.

Lemma recall_injects_relevant_results_witness :
  str_truthy (trim (str_or (prompt build_question) [])) = true
  /\ fst (Plugin.before_agent_start integer_toString
            (recalling [strong_memory; weak_memory]) default_config
            build_question fresh)
     = Ok (Some {| prependContext :=
                     lit "<relevant-memories>" ++ newline
                       ++ lit "Relevant facts from long-term memory:"
                       ++ newline
                       ++ lit "- Build uses a monorepo [score: 0.87]"
                       ++ newline ++ lit "</relevant-memories>" |}).
Proof.
  split; [reflexivity|].
  destruct (recall_injects_relevant_results integer_toString
              (recalling [strong_memory; weak_memory]) default_config
              build_question fresh eq_refl)
    as (ms & w' & S & _ & _ & _ & _ & _ & Ex).
  apply (Ex strong_memory weak_memory); try reflexivity.
  vm_compute in S. now injection S as <- _.
Defined.

(** C10.  The filter of the hook compares a result that has no score as a
    result whose score is [0].  So when the threshold is above [0] the
    filter rejects every such result, and every result in a block the hook
    returns has a score. *)
Theorem unscored_result_is_not_recalled :
  forall ns server config event w,
    (forall m,
       score m = None ->
       Plugin.relevant_memory config m = geb 0 (recallThreshold config))
    /\ (PrimFloat.ltb 0 (recallThreshold config) = true ->
        (forall m, score m = None -> Plugin.relevant_memory config m = false)
        /\ forall r,
             fst (Plugin.before_agent_start ns server config event w)
             = Ok (Some r) ->
             exists kept,
               prependContext r = Plugin.context_block ns kept
               /\ forall m, In m kept -> score m <> None).
Proof.
  intros ns server config event w.
  assert (Z : forall m, score m = None ->
                Plugin.relevant_memory config m
                = geb 0 (recallThreshold config)).
  { intros m E. unfold Plugin.relevant_memory. now rewrite E. }
  split; [exact Z|]. intros P.
  assert (U : forall m, score m = None ->
                Plugin.relevant_memory config m = false).
  { intros m E. rewrite (Z m E). now apply geb_zero_positive. }
  split; [exact U|]. intros r.
  destruct (str_truthy (trim (str_or (prompt event) []))) eqn:B.
  - destruct (before_agent_start_nonblank ns server config event w B)
      as (ms & w' & _ & H).
    rewrite H. cbn [fst]. intros E.
    exists (filter (Plugin.relevant_memory config) ms). split.
    + destruct (filter (Plugin.relevant_memory config) ms);
        [discriminate|]. now injection E as <-.
    + intros m K N. apply filter_In in K. rewrite (U m N) in K.
      destruct K; discriminate.
  - rewrite (before_agent_start_blank ns server config event w B).
    discriminate.
Qed.

(** * Further properties *)

(** ** The client, request by request *)

Lemma requests_app (t1 t2 : list Event) :
  requests (t1 ++ t2) = requests t1 ++ requests t2.
Proof.
  induction t1 as [|[req out|l s e] t1 IH]; simpl; auto. now rewrite IH.
Qed.

Lemma printed_app (t1 t2 : list Event) :
  printed (t1 ++ t2) = printed t1 ++ printed t2.
Proof.
  induction t1 as [|[req out|[| |] s e] t1 IH]; simpl; auto. now rewrite IH.
Qed.

Lemma complaints_app (t1 t2 : list Event) :
  complaints (t1 ++ t2) = complaints t1 ++ complaints t2.
Proof.
  induction t1 as [|[req out|[| |] s e] t1 IH]; simpl; auto. now rewrite IH.
Qed.

Section ClientExact.

Variable Number_toString : float -> jsstring.
Variable server : list Event -> Request -> FetchOutcome.
Variable config : Mem0Config.

Lemma ensureHealthy_ok w :
  Mem0Client.ensureHealthy server config w
  = (Ok tt, after_check server config w).
Proof.
  unfold after_check.
  destruct (ensureHealthy_returns server config w) as (evs & H & _).
  unfold returns in H. now rewrite H.
Qed.

(** The health check leaves a checked client alone; on an unchecked one it
    sends the probe and writes one line, which is not an error line. *)
Lemma after_check_trace w :
  exists evs,
    after_check server config w
    = {| healthChecked :=
           healthChecked w || answered (probe_outcome server config w);
         trace := trace w ++ evs |}
    /\ requests evs
       = (if healthChecked w then []
          else [Mem0Client.health_request config])
    /\ complaints evs = []
    /\ stores evs = [].
Proof.
  unfold after_check, probe_outcome, Mem0Client.ensureHealthy, bind,
    get_healthChecked, try_catch, Mem0Client.fetch.
  destruct w as [[|] t]; cbn [healthChecked trace orb].
  - exists []. now rewrite app_nil_r.
  - unfold bind, console, emit, set_healthChecked,
      Mem0Client.response_json, Mem0Client.data_status, ret, throw.
    destruct (server t (Mem0Client.health_request config)) as [|r];
      cbn [answered snd trace healthChecked].
    + rewrite <- app_assoc. eexists. split; [reflexivity|]. now simpl.
    + destruct (ok r); cbn [negb].
      * destruct (json r) as [[|st|ms|a]|];
          cbn [snd trace healthChecked]; rewrite <- ?app_assoc;
          eexists; (split; [reflexivity|]); now simpl.
      * cbn [snd trace healthChecked]. rewrite <- ?app_assoc.
        eexists. split; [reflexivity|]. now simpl.
Qed.

Ltac start_method :=
  unfold bind at 1; rewrite ensureHealthy_ok;
  unfold try_catch, bind, Mem0Client.fetch, Mem0Client.response_json,
    Mem0Client.data_memories, console, emit, ret, throw, extend, caught,
    complaint, memories_of;
  cbn [trace healthChecked].

Ltac finish_method :=
  cbn [trace healthChecked negb]; rewrite <- ?app_assoc; reflexivity.

(** [search], exactly. *)
Lemma search_exact q limit w :
  let req := Mem0Client.search_request Number_toString config q limit in
  let out := server (trace (after_check server config w)) req in
  Mem0Client.search Number_toString server config q limit w
  = (Ok (memories_of out),
     extend (after_check server config w)
       (Fetch req out
          :: complaint (lit "[memory-mem0] Search error:")
               (caught (lit "Search failed: ") true true out))).
Proof.
  intros req out. subst req out. unfold Mem0Client.search. start_method.
  destruct (server _ _) as [|r]; [finish_method|].
  destruct (ok r); [|finish_method].
  destruct (json r) as [[|st|[ms|]|a]|]; finish_method.
Qed.

(** [list], exactly. *)
Lemma list_exact w :
  let req := Mem0Client.list_request config in
  let out := server (trace (after_check server config w)) req in
  Mem0Client.list server config w
  = (Ok (memories_of out),
     extend (after_check server config w)
       (Fetch req out
          :: complaint (lit "[memory-mem0] List error:")
               (caught (lit "List failed: ") true true out))).
Proof.
  intros req out. subst req out. unfold Mem0Client.list. start_method.
  destruct (server _ _) as [|r]; [finish_method|].
  destruct (ok r); [|finish_method].
  destruct (json r) as [[|st|[ms|]|a]|]; finish_method.
Qed.

(** [add], exactly: the result is the body of a 2xx response, [null] on any
    failure. *)
Lemma add_exact c a w :
  let req := Mem0Client.add_request config c a in
  let out := server (trace (after_check server config w)) req in
  Mem0Client.add server config c a w
  = (Ok match out with
        | Rejected => None
        | Responded r =>
            if ok r
            then match json r with
                 | Some JNull | None => None
                 | Some v => Some v
                 end
            else None
        end,
     extend (after_check server config w)
       (Fetch req out
          :: complaint (lit "[memory-mem0] Add error:")
               (caught (lit "Add failed: ") true false out))).
Proof.
  intros req out. subst req out. unfold Mem0Client.add. start_method.
  destruct (server _ _) as [|r]; [finish_method|].
  destruct (ok r); [|finish_method].
  destruct (json r) as [[|st|ms|ar]|]; finish_method.
Qed.

(** [delete], exactly: the body of the response is never read. *)
Lemma delete_exact i w :
  let req := Mem0Client.delete_request config i in
  let out := server (trace (after_check server config w)) req in
  Mem0Client.delete server config i w
  = (Ok (negb (failed out)),
     extend (after_check server config w)
       (Fetch req out
          :: complaint (lit "[memory-mem0] Delete error:")
               (caught (lit "Delete failed: ") false false out))).
Proof.
  intros req out. subst req out. unfold Mem0Client.delete. start_method.
  destruct (server _ _) as [|r]; [finish_method|].
  cbn [failed]. destruct (ok r); finish_method.
Qed.

End ClientExact.

(** X1.  An operation never throws, and what it sends is the probe, if the
    client is not checked yet, and then one request of its own: a failed
    request is not sent again. *)
Theorem operation_sends_one_request :
  forall ns server config op w,
    fst (run_op ns server config op w) = Ok tt
    /\ requests (trace (snd (run_op ns server config op w)))
       = requests (trace w)
         ++ (if healthChecked w then []
             else [Mem0Client.health_request config])
         ++ [own_request ns config op].
Proof.
  intros ns server config op w.
  destruct (after_check_trace server config w) as (evs & A & R & _).
  destruct op as [q limit|c a| |i]; unfold run_op, bind;
    [rewrite search_exact|rewrite add_exact|rewrite list_exact
    |rewrite delete_exact];
    (split; [reflexivity|]);
    unfold ret, extend; cbn [snd fst trace own_request];
    rewrite A; cbn [trace];
    rewrite !requests_app, R; cbn [requests];
    unfold complaint; destruct (caught _ _ _ _);
    cbn [requests]; now rewrite <- app_assoc.
Qed.

(** X2.  An operation writes one line with [console.error], its own, when
    it catches an error of its request, and none otherwise. *)
Theorem operation_logs_its_failure_once :
  forall ns server config op w,
    complaints (trace (snd (run_op ns server config op w)))
    = complaints (trace w)
      ++ match op_caught op
                 (server (trace (after_check server config w))
                    (own_request ns config op)) with
         | Some _ => [op_line op]
         | None => []
         end.
Proof.
  intros ns server config op w.
  destruct (after_check_trace server config w) as (evs & A & _ & C & _).
  destruct op as [q limit|c a| |i]; unfold run_op, bind;
    [rewrite search_exact|rewrite add_exact|rewrite list_exact
    |rewrite delete_exact];
    unfold ret, extend; cbn [snd fst trace own_request op_caught op_line];
    rewrite complaints_app; cbn [complaints]; f_equal;
    try (rewrite A; cbn [trace]; rewrite complaints_app, C;
         now rewrite app_nil_r);
    unfold complaint; now destruct (caught _ _ _ _).
Qed.

(** X3.  On a 2xx response [search] returns the [memories] of the body as
    they are, in the order of the server and without looking at their
    scores; when the body has no [memories] it returns the empty list. *)
Theorem search_returns_the_memories_of_the_server :
  forall ns server config q limit w r,
    server (trace (after_check server config w))
      (Mem0Client.search_request ns config q limit) = Responded r ->
    (200 <= status r <= 299)%N ->
    (forall ms,
       json r = Some (JSearch (Some ms)) ->
       fst (Mem0Client.search ns server config q limit w) = Ok ms)
    /\ (json r = Some (JSearch None) ->
        fst (Mem0Client.search ns server config q limit w) = Ok []).
Proof.
  intros ns server config q limit w r E S. apply ok_status in S.
  rewrite search_exact. cbn [fst]. rewrite E. unfold memories_of.
  rewrite S. split; [intros ms J|intros J]; now rewrite J.
Qed.

Lemma search_returns_the_memories_of_the_server_witness :
  recalling [weak_memory; strong_memory]
    (trace (after_check (recalling [weak_memory; strong_memory])
              default_config fresh))
    (Mem0Client.search_request integer_toString default_config
       (lit "build") None)
  = Responded {| status := 200; statusText := [];
                 json := Some (JSearch
                                 (Some [weak_memory; strong_memory])) |}
  /\ fst (Mem0Client.search integer_toString
            (recalling [weak_memory; strong_memory]) default_config
            (lit "build") None fresh)
     = Ok [weak_memory; strong_memory].
Proof.
  split; [reflexivity|].
  apply (search_returns_the_memories_of_the_server integer_toString
           (recalling [weak_memory; strong_memory]) default_config
           (lit "build") None fresh _ eq_refl); [|reflexivity].
  cbn [status]. lia.
Defined.

(** X4.  [list] never throws: it returns the empty list when its request is
    rejected or answered with a status that is not 2xx, and the [memories]
    of the body, as they are, on a 2xx response that has them.  Its request
    is a [GET] of [<baseUrl>/memories] for the configured user. *)
Theorem list_returns_memories_or_nothing :
  forall server config w,
    let out := server (trace (after_check server config w))
                 {| method := GET;
                    url := baseUrl config ++ lit "/memories";
                    query := [(lit "user_id", userId config)];
                    headers := [(lit "Content-Type", lit "application/json")];
                    timeout := None;
                    body := None |} in
    (failed out = true -> fst (Mem0Client.list server config w) = Ok [])
    /\ (forall r ms,
          out = Responded r -> (200 <= status r <= 299)%N ->
          json r = Some (JSearch (Some ms)) ->
          fst (Mem0Client.list server config w) = Ok ms).
Proof.
  intros server config w out. rewrite list_exact. cbn [fst].
  change (server (trace (after_check server config w))
            (Mem0Client.list_request config)) with out.
  unfold memories_of. split.
  - destruct out as [|r]; [reflexivity|]. cbn [failed].
    intros F. apply negb_true_iff in F. now rewrite F.
  - intros r ms -> S J. apply ok_status in S. now rewrite S, J.
Qed.

(** X5.  A limit that is missing, [0] or [NaN] is the configured recall
    limit: the search runs exactly as with that limit given. *)
Theorem search_limit_falls_back :
  forall ns server config q w,
    Mem0Client.search ns server config q None w
    = Mem0Client.search ns server config q (Some (recallLimit config)) w
    /\ forall x,
         num_truthy x = false ->
         Mem0Client.search ns server config q (Some x) w
         = Mem0Client.search ns server config q
             (Some (recallLimit config)) w.
Proof.
  intros ns server config q w.
  assert (L : forall limit,
            Mem0Client.effective_limit config limit = recallLimit config ->
            Mem0Client.search ns server config q limit w
            = Mem0Client.search ns server config q
                (Some (recallLimit config)) w).
  { intros limit E. rewrite !search_exact.
    assert (R : Mem0Client.search_request ns config q limit
                = Mem0Client.search_request ns config q
                    (Some (recallLimit config))).
    { unfold Mem0Client.search_request. rewrite E. do 4 f_equal.
      unfold Mem0Client.effective_limit, num_or.
      now destruct (num_truthy (recallLimit config)). }
    now rewrite R. }
  split.
  - apply L. reflexivity.
  - intros x T. apply L. unfold Mem0Client.effective_limit, num_or.
    now rewrite T.
Qed.

(** X6.  An agent id that is the empty string is no agent id: [add] runs
    exactly as without one.  With any other agent id the one [POST] of
    [add] carries it as [metadata.agent_id], after the content and the
    configured user id. *)
Theorem add_tags_the_agent :
  forall server config text w,
    Mem0Client.add server config text (Some []) w
    = Mem0Client.add server config text None w
    /\ forall agent,
         agent <> [] ->
         map fst (stores (trace (snd (Mem0Client.add server config text
                                        (Some agent) w))))
         = map fst (stores (trace w))
           ++ [ {| method := POST;
                   url := baseUrl config ++ lit "/memories";
                   query := [];
                   headers := [(lit "Content-Type", lit "application/json")];
                   timeout := None;
                   body :=
                     Some (JObject
                             [(lit "content", JString text);
                              (lit "user_id", JString (userId config));
                              (lit "metadata",
                               JObject [(lit "agent_id", JString agent)])])
                |} ].
Proof.
  intros server config text w. split; [reflexivity|].
  intros agent N. rewrite add_exact. unfold extend. cbn [snd trace].
  destruct (after_check_trace server config w) as (evs & A & _ & _ & S).
  rewrite A. cbn [trace]. rewrite !stores_app, S, app_nil_r, !map_app.
  cbn [stores Mem0Client.add_request method app map].
  unfold complaint. destruct (caught _ _ _ _); cbn [stores map fst app];
    unfold Mem0Client.add_request, Mem0Client.add_body,
      Mem0Client.add_metadata;
    destruct agent; [congruence|reflexivity|congruence|reflexivity].
Qed.

(** ** The tools *)

Section ToolFacts.

Variable Number_toString : float -> jsstring.
Variable server : list Event -> Request -> FetchOutcome.
Variable config : Mem0Config.

(** [memory_store] reports what became of its one request. *)
Lemma memory_store_exact text agent w :
  fst (Plugin.memory_store server config text agent w)
  = match stored_of
            (server (trace (after_check server config w))
               (Mem0Client.add_request config text agent)) with
    | Some a =>
        match results a with
        | Some ms =>
            Ok (text_result
                  (lit "Stored in memory: "
                     ++ join (lit ", ") (map added_memory ms)))
        | None => Throw TypeError
        end
    | None => Ok (text_result (lit "Failed to store memory."))
    end.
Proof.
  unfold Plugin.memory_store, bind. rewrite add_exact.
  unfold stored_of, Plugin.stored_ok.
  destruct (server _ _) as [|r]; [reflexivity|].
  destruct (ok r); [|reflexivity].
  destruct (json r) as [[|st|ms|a]|]; try reflexivity.
  destruct (success a); [|reflexivity].
  now destruct (results a).
Qed.

End ToolFacts.

(** X7.  The text of [memory_store] is [Failed to store memory.] when its
    request is rejected or answered with a status that is not 2xx, when the
    body of a 2xx response is not JSON or is [null], and when the body does
    not report success.  The tool throws, a [TypeError] that nothing in it
    catches, exactly when a 2xx body reports success and has no
    [result.results] to read; in every other case it returns. *)
Theorem memory_store_reports_failure :
  forall server config text agent w,
    let out := server (trace (after_check server config w))
                 (Mem0Client.add_request config text agent) in
    (failed out = true ->
     fst (Plugin.memory_store server config text agent w)
     = Ok (text_result (lit "Failed to store memory.")))
    /\ (forall r,
          out = Responded r ->
          json r = None \/ json r = Some JNull
          \/ (exists a, json r = Some (JAdd a) /\ success a = false) ->
          fst (Plugin.memory_store server config text agent w)
          = Ok (text_result (lit "Failed to store memory.")))
    /\ (forall e,
          fst (Plugin.memory_store server config text agent w) = Throw e
          <-> e = TypeError
              /\ exists r a,
                   out = Responded r /\ ok r = true
                   /\ json r = Some (JAdd a) /\ success a = true
                   /\ results a = None).
Proof.
  intros server config text agent w out.
  rewrite memory_store_exact. fold out. split; [|split].
  - destruct out as [|r]; [reflexivity|]. cbn [failed stored_of].
    intros F. apply negb_true_iff in F. now rewrite F.
  - intros r -> J. cbn [stored_of]. destruct (ok r); [|reflexivity].
    destruct J as [->|[->|(a & -> & ->)]]; reflexivity.
  - intros e. unfold stored_of. split.
    + destruct out as [|r]; [discriminate|].
      destruct (ok r) eqn:O; [|discriminate].
      destruct (json r) as [[|st|ms|a]|] eqn:J; try discriminate.
      destruct (success a) eqn:S; [|discriminate].
      destruct (results a) eqn:R; [discriminate|].
      intros [= <-]. split; [reflexivity|]. now exists r, a.
    + intros (-> & r & a & -> & O & J & S & R).
      now rewrite O, J, S, R.
Qed.

(** A body that reports success and nothing else. *)
Example memory_store_throws_without_results :
  fst (Plugin.memory_store
         (answering 200 (Some (JAdd {| success := true; results := None |})))
         default_config (lit "Remember: the build uses a monorepo") None
         fresh)
  = Throw TypeError.
Proof. vm_compute. reflexivity. Qed.

(** X8.  [memory_forget] never throws and sends one [DELETE], to
    [<baseUrl>/memories/<id>] with the id as it was given.  Its text is
    [Deleted memory: <id>] when the response is 2xx, whatever its body, and
    [Failed to delete memory: <id>] otherwise. *)
Theorem memory_forget_reports_the_outcome :
  forall server config i w,
    let req := {| method := DELETE;
                  url := baseUrl config ++ lit "/memories/" ++ i;
                  query := [];
                  headers := [(lit "Content-Type", lit "application/json")];
                  timeout := None;
                  body := None |} in
    let out := server (trace (after_check server config w)) req in
    fst (Plugin.memory_forget server config i w)
    = Ok (text_result
            (if failed out then lit "Failed to delete memory: " ++ i
             else lit "Deleted memory: " ++ i))
    /\ requests (trace (snd (Plugin.memory_forget server config i w)))
       = requests (trace w)
         ++ (if healthChecked w then []
             else [Mem0Client.health_request config])
         ++ [req].
Proof.
  intros server config i w req out.
  unfold Plugin.memory_forget, bind. rewrite delete_exact.
  change (Mem0Client.delete_request config i) with req. fold out.
  unfold ret. cbn [fst snd]. split.
  - now destruct (failed out).
  - destruct (after_check_trace server config w) as (evs & A & R & _).
    unfold extend. rewrite A. cbn [trace].
    rewrite !requests_app, R. cbn [requests].
    unfold complaint. destruct (caught _ _ _ _); cbn [requests];
      now rewrite <- app_assoc.
Qed.

Lemma recall_lines_length ns i0 ms :
  List.length (Plugin.recall_lines ns i0 ms) = List.length ms.
Proof.
  revert i0; induction ms as [|m ms IH]; intros i0; simpl; auto.
Qed.

Lemma recall_lines_nth ns i0 ms k m :
  nth_error ms k = Some m ->
  nth_error (Plugin.recall_lines ns i0 ms) k
  = Some (digits (i0 + N.of_nat k + 1) ++ lit ". " ++ memory m
            ++ match score m with
               | Some sc => lit " (relevance: " ++ toFixed2 ns sc ++ lit ")"
               | None => []
               end).
Proof.
  revert i0 k; induction ms as [|m0 ms IH]; intros i0 [|k] E;
    try discriminate E.
  - injection E as ->. cbn [Plugin.recall_lines nth_error N.of_nat].
    now rewrite N.add_0_r.
  - cbn [Plugin.recall_lines nth_error] in *. rewrite (IH (i0 + 1)%N k E).
    do 3 f_equal. lia.
Qed.

(** X9.  A search that failed reads as a search that found nothing: on a
    rejected request, on a status that is not 2xx and on a 2xx response
    without memories [memory_recall] returns the text
    [No relevant memories found for: "<query>"]. *)
Theorem memory_recall_reports_nothing_found :
  forall ns server config q limit w,
    let out := server (trace (after_check server config w))
                 (Mem0Client.search_request ns config q limit) in
    failed out = true \/ memories_of out = [] ->
    fst (Plugin.memory_recall ns server config q limit w)
    = Ok (text_result
            (lit "No relevant memories found for: " ++ [34%N] ++ q
               ++ [34%N])).
Proof.
  intros ns server config q limit w out H.
  unfold Plugin.memory_recall, bind. rewrite search_exact. fold out.
  assert (E : memories_of out = []).
  { destruct H as [F|E]; [|exact E].
    destruct out as [|r]; [reflexivity|]. cbn [failed memories_of] in *.
    apply negb_true_iff in F. now rewrite F. }
  now rewrite E.
Qed.

Lemma memory_recall_reports_nothing_found_witness :
  (failed (unreachable
             (trace (after_check unreachable default_config fresh))
             (Mem0Client.search_request integer_toString default_config
                (lit "build") None)) = true
   \/ memories_of
        (unreachable
           (trace (after_check unreachable default_config fresh))
           (Mem0Client.search_request integer_toString default_config
              (lit "build") None)) = [])
  /\ fst (Plugin.memory_recall integer_toString unreachable default_config
            (lit "build") None fresh)
     = Ok (text_result (lit "No relevant memories found for: " ++ [34%N]
                          ++ lit "build" ++ [34%N])).
Proof.
  assert (H : failed (unreachable
                        (trace (after_check unreachable default_config
                                  fresh))
                        (Mem0Client.search_request integer_toString
                           default_config (lit "build") None)) = true
              \/ memories_of
                   (unreachable
                      (trace (after_check unreachable default_config fresh))
                      (Mem0Client.search_request integer_toString
                         default_config (lit "build") None)) = [])
    by (left; reflexivity).
  split; [exact H|].
  exact (memory_recall_reports_nothing_found integer_toString unreachable
           default_config (lit "build") None fresh H).
Defined.

(** X10.  When the search of [memory_recall] gets memories, its text is the
    count followed by one line for each of them, in the order of the
    server, none left out: line [k], counted from 0, is the memory numbered
    [k + 1], with its score to two decimals when it has one and nothing
    after the text when it has none. *)
Theorem memory_recall_lists_every_result :
  forall ns server config q limit w r m ms,
    server (trace (after_check server config w))
      (Mem0Client.search_request ns config q limit) = Responded r ->
    (200 <= status r <= 299)%N ->
    json r = Some (JSearch (Some (m :: ms))) ->
    exists lines,
      fst (Plugin.memory_recall ns server config q limit w)
      = Ok (text_result
              (lit "Found " ++ digits (N.of_nat (S (List.length ms)))
                 ++ lit " relevant memories:" ++ newline ++ newline
                 ++ join newline lines))
      /\ List.length lines = S (List.length ms)
      /\ forall k mk,
           nth_error (m :: ms) k = Some mk ->
           nth_error lines k
           = Some (digits (N.of_nat k + 1) ++ lit ". " ++ memory mk
                     ++ match score mk with
                        | Some sc =>
                            lit " (relevance: " ++ toFixed2 ns sc ++ lit ")"
                        | None => []
                        end).
Proof.
  intros ns server config q limit w r m ms E S J. apply ok_status in S.
  exists (Plugin.recall_lines ns 0 (m :: ms)).
  unfold Plugin.memory_recall, bind. rewrite search_exact, E.
  unfold memories_of. rewrite S, J. split; [reflexivity|]. split.
  - apply recall_lines_length.
  - intros k mk N. now rewrite (recall_lines_nth ns 0 (m :: ms) k mk N).
Qed.

Lemma memory_recall_lists_every_result_witness :
  recalling [weak_memory; unscored_memory]
    (trace (after_check (recalling [weak_memory; unscored_memory])
              default_config fresh))
    (Mem0Client.search_request integer_toString default_config
       (lit "build") None)
  = Responded {| status := 200; statusText := [];
                 json := Some (JSearch
                                 (Some [weak_memory; unscored_memory])) |}
  /\ fst (Plugin.memory_recall integer_toString
            (recalling [weak_memory; unscored_memory]) default_config
            (lit "build") None fresh)
     = Ok (text_result
             (lit "Found 2 relevant memories:" ++ newline ++ newline
                ++ lit "1. Lunch is at noon (relevance: 0.20)" ++ newline
                ++ lit "2. Build uses a monorepo")).
Proof.
  split; [reflexivity|].
  destruct (memory_recall_lists_every_result integer_toString
              (recalling [weak_memory; unscored_memory]) default_config
              (lit "build") None fresh
              {| status := 200; statusText := [];
                 json := Some (JSearch
                                 (Some [weak_memory; unscored_memory])) |}
              weak_memory [unscored_memory] eq_refl)
    as (lines & T & L & Nth); [cbn [status]; lia|reflexivity|].
  destruct lines as [|l0 [|l1 [|l2 lines]]]; try discriminate L.
  pose proof (Nth 0%nat _ eq_refl) as N0.
  pose proof (Nth 1%nat _ eq_refl) as N1.
  cbn [nth_error] in N0, N1. injection N0 as ->. injection N1 as ->.
  rewrite T. reflexivity.
Defined.

(** X11.  The client and the tools read only the base URL, the user id and
    the recall limit of the configuration: [memory_recall] lists results
    below the recall threshold too, and neither switch stops a tool. *)
Theorem tools_ignore_threshold_and_switches :
  forall ns server url user limit capture recall threshold
         capture' recall' threshold',
    let config := {| baseUrl := url; userId := user;
                     autoCapture := capture; autoRecall := recall;
                     recallLimit := limit; recallThreshold := threshold |} in
    let config' := {| baseUrl := url; userId := user;
                      autoCapture := capture'; autoRecall := recall';
                      recallLimit := limit;
                      recallThreshold := threshold' |} in
    (forall ops w,
       run_ops ns server config ops w = run_ops ns server config' ops w)
    /\ (forall q l w,
          Plugin.memory_recall ns server config q l w
          = Plugin.memory_recall ns server config' q l w)
    /\ (forall text agent w,
          Plugin.memory_store server config text agent w
          = Plugin.memory_store server config' text agent w)
    /\ (forall i w,
          Plugin.memory_forget server config i w
          = Plugin.memory_forget server config' i w).
Proof.
  intros ns server url user limit capture recall threshold
         capture' recall' threshold' config config'.
  split; [|split; [|split]].
  - intros ops; induction ops as [|op ops IH]; intros w; [reflexivity|].
    cbn [run_ops]. unfold bind.
    replace (run_op ns server config' op w)
      with (run_op ns server config op w) by (destruct op; reflexivity).
    destruct (run_op ns server config op w) as [[[]|e] w1];
      [apply IH|reflexivity].
  - reflexivity.
  - reflexivity.
  - reflexivity.
Qed.

(** ** The hooks *)

Lemma eqb_eq (a b : jsstring) : JS.eqb a b = true <-> a = b.
Proof.
  split; [|intros ->; apply eqb_refl].
  revert b; induction a as [|x a IH]; intros [|y b]; simpl;
    try discriminate; [reflexivity|].
  rewrite andb_true_iff, N.eqb_eq. intros [-> E]. now rewrite (IH b E).
Qed.

Lemma trim_start_blank (s : jsstring) :
  (forall c, In c s -> is_space c = true) -> trim_start s = [].
Proof.
  induction s as [|x s IH]; intros B; simpl; [reflexivity|].
  rewrite (B x (or_introl eq_refl)). apply IH. intros c I. apply B. now right.
Qed.

Lemma trim_blank (s : jsstring) :
  (forall c, In c s -> is_space c = true) -> trim s = [].
Proof.
  intros B. unfold trim. now rewrite (trim_start_blank s B).
Qed.

Lemma trim_start_keeps_ink (s : jsstring) :
  (exists c, In c s /\ is_space c = false) ->
  exists c, In c (trim_start s) /\ is_space c = false.
Proof.
  induction s as [|x s IH]; intros (c & I & N); [destruct I|].
  simpl. destruct (is_space x) eqn:X.
  - apply IH. exists c. split; [|exact N].
    destruct I as [<-|I]; [congruence|exact I].
  - exists c. now split.
Qed.

Lemma trim_not_blank (s : jsstring) :
  (exists c, In c s /\ is_space c = false) -> str_truthy (trim s) = true.
Proof.
  intros H. apply trim_start_keeps_ink in H. destruct H as (c & I & N).
  unfold trim, trim_end.
  destruct (trim_start_keeps_ink (rev (trim_start s))) as (d & J & _).
  { exists c. split; [now apply in_rev in I|exact N]. }
  apply in_rev in J. now destruct (rev (trim_start (rev (trim_start s)))).
Qed.

(** X12.  A prompt that is missing, empty or made of white space only is
    not searched for: the hook returns nothing and leaves the world as it
    was, with no request sent, not even the health probe. *)
Theorem blank_prompt_is_not_searched :
  forall ns server config event w,
    (prompt event = None
     \/ exists s, prompt event = Some s
                  /\ forall c, In c s -> is_space c = true) ->
    Plugin.before_agent_start ns server config event w = (Ok None, w).
Proof.
  intros ns server config event w H.
  unfold Plugin.before_agent_start.
  assert (B : trim (str_or (prompt event) []) = []).
  { destruct H as [->|(s & -> & B)]; [reflexivity|].
    unfold str_or. destruct (str_truthy s); [|reflexivity].
    now apply trim_blank. }
  now rewrite B.
Qed.

Lemma blank_prompt_is_not_searched_witness :
  (prompt {| prompt := Some [32; 9; 10; 160; 32]%N |} = None
   \/ exists s, prompt {| prompt := Some [32; 9; 10; 160; 32]%N |} = Some s
                /\ forall c, In c s -> is_space c = true)
  /\ Plugin.before_agent_start integer_toString
       (recalling [strong_memory]) default_config
       {| prompt := Some [32; 9; 10; 160; 32]%N |} fresh
     = (Ok None, fresh).
Proof.
  assert (H : prompt {| prompt := Some [32; 9; 10; 160; 32]%N |} = None
              \/ exists s,
                   prompt {| prompt := Some [32; 9; 10; 160; 32]%N |} = Some s
                   /\ forall c, In c s -> is_space c = true).
  { right. exists [32; 9; 10; 160; 32]%N. split; [reflexivity|].
    intros c I. cbn [In] in I.
    repeat (destruct I as [<-|I]; [reflexivity|]). destruct I. }
  split; [exact H|].
  exact (blank_prompt_is_not_searched integer_toString
           (recalling [strong_memory]) default_config _ fresh H).
Defined.

(** X13.  On a prompt with a character that is not white space the hook
    sends, after the probe of an unchecked client, one search: for the
    prompt as it was given, untrimmed, for the configured user, with the
    configured recall limit. *)
Theorem recall_searches_for_the_prompt :
  forall ns server config s w,
    (exists c, In c s /\ is_space c = false) ->
    requests (trace (snd (Plugin.before_agent_start ns server config
                            {| prompt := Some s |} w)))
    = requests (trace w)
      ++ (if healthChecked w then []
          else [Mem0Client.health_request config])
      ++ [ {| method := GET;
              url := baseUrl config ++ lit "/memories/search";
              query := [(lit "query", s);
                        (lit "user_id", userId config);
                        (lit "limit", ns (recallLimit config))];
              headers := [(lit "Content-Type", lit "application/json")];
              timeout := None;
              body := None |} ].
Proof.
  intros ns server config s w H.
  assert (S : str_or (Some s) [] = s).
  { destruct H as (c & I & _). now destruct s. }
  unfold Plugin.before_agent_start. cbn [prompt]. rewrite S.
  rewrite (trim_not_blank s H). cbn [negb]. unfold bind.
  rewrite search_exact.
  destruct (filter _ _) eqn:F; unfold ret; cbn [snd];
    unfold extend; cbn [trace];
    destruct (after_check_trace server config w) as (evs & A & Q & _);
    rewrite A; cbn [trace]; rewrite !requests_app, Q; cbn [requests];
    unfold complaint; destruct (caught _ _ _ _); cbn [requests];
    rewrite <- app_assoc; do 3 f_equal;
    unfold Mem0Client.search_request, Mem0Client.effective_limit, num_or;
    now destruct (num_truthy (recallLimit config)).
Qed.

Lemma recall_searches_for_the_prompt_witness :
  (exists c, In c (lit " build? ") /\ is_space c = false)
  /\ map query
       (requests (trace (snd (Plugin.before_agent_start integer_toString
                                unreachable default_config
                                {| prompt := Some (lit " build? ") |}
                                fresh))))
     = [[]; [(lit "query", lit " build? ");
             (lit "user_id", lit "openclaw");
             (lit "limit", lit "5")]].
Proof.
  assert (H : exists c, In c (lit " build? ") /\ is_space c = false).
  { exists 98%N. split; [right; left; reflexivity|reflexivity]. }
  split; [exact H|].
  etransitivity;
    [apply f_equal;
     exact (recall_searches_for_the_prompt integer_toString unreachable
              default_config (lit " build? ") fresh H)
    |reflexivity].
Defined.

(** X14.  When the search of the hook fails (its request is rejected or
    answered with a status that is not 2xx) the hook neither throws nor
    injects: it returns nothing, as it does when nothing is relevant. *)
Theorem recall_injects_nothing_when_search_fails :
  forall ns server config event w,
    failed (server (trace (after_check server config w))
              (Mem0Client.search_request ns config
                 (str_or (prompt event) []) (Some (recallLimit config))))
    = true ->
    fst (Plugin.before_agent_start ns server config event w) = Ok None.
Proof.
  intros ns server config event w F.
  unfold Plugin.before_agent_start.
  destruct (str_truthy (trim (str_or (prompt event) []))); [|reflexivity].
  cbn [negb]. unfold bind. rewrite search_exact.
  assert (E : memories_of
                (server (trace (after_check server config w))
                   (Mem0Client.search_request ns config
                      (str_or (prompt event) [])
                      (Some (recallLimit config)))) = []).
  { destruct (server _ _) as [|r]; [reflexivity|].
    cbn [failed memories_of] in *. apply negb_true_iff in F.
    now rewrite F. }
  now rewrite E.
Qed.

Lemma recall_injects_nothing_when_search_fails_witness :
  failed (answering 500 None
            (trace (after_check (answering 500 None) default_config fresh))
            (Mem0Client.search_request integer_toString default_config
               (str_or (prompt build_question) [])
               (Some (recallLimit default_config))))
  = true
  /\ fst (Plugin.before_agent_start integer_toString (answering 500 None)
            default_config build_question fresh) = Ok None.
Proof.
  split; [reflexivity|].
  apply (recall_injects_nothing_when_search_fails integer_toString
           (answering 500 None) default_config build_question fresh).
  reflexivity.
Defined.

(** X15.  What the recall hook injects is never captured: a message whose
    text contains a block the hook returned, anywhere in it, is skipped by
    the capture loop of any run, whatever its role and the rest of its
    text. *)
Theorem injected_block_is_never_captured :
  forall ns server config event w r,
    fst (Plugin.before_agent_start ns server config event w) = Ok (Some r) ->
    forall server' config' agent msg w' before after,
      Plugin.message_text msg = before ++ prependContext r ++ after ->
      Plugin.capture server' config' agent msg w' = (Ok tt, w').
Proof.
  intros ns server config event w r H server' config' agent msg w'
    before after E.
  assert (B : exists rest, prependContext r = marker ++ rest).
  { unfold Plugin.before_agent_start in H.
    destruct (str_truthy (trim (str_or (prompt event) [])));
      [|discriminate H].
    cbn [negb] in H. unfold bind in H. rewrite search_exact in H.
    destruct (filter _ _) as [|m kept]; [discriminate H|].
    unfold ret in H. cbn [fst] in H. injection H as <-.
    cbn [prependContext]. unfold Plugin.context_block. eauto. }
  destruct B as [rest B]. apply capture_skips.
  unfold captured, substantial.
  assert (I : includes (Plugin.message_text msg) marker = true).
  { apply includes_spec. exists before, (rest ++ after).
    now rewrite E, B, <- app_assoc. }
  rewrite I. simpl. apply andb_false_r.
Qed.

Lemma injected_block_is_never_captured_witness :
  fst (Plugin.before_agent_start integer_toString
         (recalling [strong_memory]) default_config build_question fresh)
  = Ok (Some {| prependContext :=
                  Plugin.context_block integer_toString [strong_memory] |})
  /\ stores
       (trace (snd (Plugin.capture storing default_config None
                      (user_says
                         (Plugin.context_block integer_toString
                            [strong_memory]
                            ++ lit " How is the build organised?"))
                      fresh)))
     = [].
Proof.
  split; [reflexivity|].
  rewrite (injected_block_is_never_captured integer_toString
             (recalling [strong_memory]) default_config build_question
             fresh
             {| prependContext :=
                  Plugin.context_block integer_toString [strong_memory] |}
             eq_refl storing default_config None
             (user_says
                (Plugin.context_block integer_toString [strong_memory]
                   ++ lit " How is the build organised?"))
             fresh [] (lit " How is the build organised?") eq_refl).
  reflexivity.
Defined.

(** X16.  Only user and assistant messages are captured: a message whose
    role is any other string (the comparison is exact, so [User] is
    another string) is skipped whatever its text, and the capture runs as
    on the conversation without it. *)
Theorem other_roles_are_never_captured :
  forall server config agent pre msg post w,
    role msg <> lit "user" ->
    role msg <> lit "assistant" ->
    Plugin.capture server config agent msg w = (Ok tt, w)
    /\ Plugin.agent_end server config
         {| messages := Some (pre ++ msg :: post); agentId := agent |} w
       = Plugin.agent_end server config
           {| messages := Some (pre ++ post); agentId := agent |} w.
Proof.
  intros server config agent pre msg post w U A.
  assert (C : captured msg = false).
  { unfold captured, Plugin.captured_role.
    destruct (JS.eqb (role msg) (lit "user")) eqn:E1;
      [apply eqb_eq in E1; contradiction|].
    destruct (JS.eqb (role msg) (lit "assistant")) eqn:E2;
      [apply eqb_eq in E2; contradiction|reflexivity]. }
  split.
  - now apply capture_skips.
  - unfold Plugin.agent_end; cbn [messages agentId]. now apply for_of_skip.
Qed.

Lemma other_roles_are_never_captured_witness :
  role {| role := lit "User"; msg_content := Some fifty |} <> lit "user"
  /\ role {| role := lit "User"; msg_content := Some fifty |}
     <> lit "assistant"
  /\ Plugin.capture storing default_config None
       {| role := lit "User"; msg_content := Some fifty |} fresh
     = (Ok tt, fresh).
Proof.
  assert (U : role {| role := lit "User"; msg_content := Some fifty |}
              <> lit "user") by discriminate.
  assert (A : role {| role := lit "User"; msg_content := Some fifty |}
              <> lit "assistant") by discriminate.
  split; [exact U|]. split; [exact A|].
  exact (proj1 (other_roles_are_never_captured storing default_config None
                  [] _ [] fresh U A)).
Defined.

(** X17.  A run in which no message qualifies costs nothing: when the event
    has no messages, or every message is of another role, lacks content,
    contains the marker or is shorter than 50 characters once trimmed, the
    capture returns with the world as it was, no request sent, not even
    the health probe. *)
Theorem nothing_to_capture_sends_nothing :
  forall server config agent w,
    Plugin.agent_end server config
      {| messages := None; agentId := agent |} w = (Ok tt, w)
    /\ (forall msgs,
          (forall m, In m msgs -> captured m = false) ->
          Plugin.agent_end server config
            {| messages := Some msgs; agentId := agent |} w = (Ok tt, w))
    /\ (forall r, captured {| role := r; msg_content := None |} = false)
    /\ (forall r, captured {| role := r; msg_content := Some [] |} = false).
Proof.
  intros server config agent w. split; [reflexivity|]. split.
  - unfold Plugin.agent_end; cbn [messages agentId].
    intros msgs; induction msgs as [|m msgs IH]; intros H; [reflexivity|].
    cbn [Plugin.for_of]. unfold bind.
    rewrite (capture_skips server config agent m w
               (H m (or_introl eq_refl))).
    apply IH. intros m' I. apply H. now right.
  - split; intros r; unfold captured, substantial;
      cbn [Plugin.message_text msg_content str_or str_truthy];
      now rewrite andb_false_r.
Qed.

Lemma capture_requests server config agent msg w :
  exists rs,
    Plugin.capture server config agent msg w
    = (Ok tt, snd (Plugin.capture server config agent msg w))
    /\ requests (trace (snd (Plugin.capture server config agent msg w)))
       = requests (trace w) ++ rs
    /\ Forall (fun req =>
                 req = Mem0Client.health_request config
                 \/ (captured msg = true
                     /\ req = Mem0Client.add_request config
                                (Plugin.message_text msg) agent)) rs.
Proof.
  destruct (captured msg) eqn:C.
  - unfold captured, substantial, Plugin.capture in *.
    destruct (Plugin.captured_role msg); [|discriminate C].
    destruct (includes (Plugin.message_text msg) marker); [discriminate C|].
    destruct (List.length (trim (Plugin.message_text msg)) <? 50)%nat;
      [discriminate C|].
    unfold bind. rewrite add_exact. unfold ret, extend. cbn [snd trace].
    destruct (after_check_trace server config w) as (evs & A & R & _).
    rewrite A. cbn [trace]. rewrite !requests_app, R. cbn [requests].
    eexists. split; [reflexivity|]. split.
    + rewrite <- app_assoc. reflexivity.
    + unfold complaint.
      destruct (healthChecked w), (caught _ _ _ _); cbn [requests app];
        repeat apply Forall_cons; try apply Forall_nil; auto.
  - rewrite (capture_skips server config agent msg w C). exists [].
    cbn [snd]. rewrite app_nil_r. repeat split. constructor.
Qed.

(** X18.  The capture only probes and stores: every request it sends is the
    health probe or the [POST] of one of the messages that qualify, for its
    text as it is and the agent id of the run; it never searches, lists or
    deletes. *)
Theorem capture_only_probes_and_stores :
  forall server config event w,
  exists rs,
    requests (trace (snd (Plugin.agent_end server config event w)))
    = requests (trace w) ++ rs
    /\ Forall (fun req =>
                 req = Mem0Client.health_request config
                 \/ exists m,
                      In m (match messages event with
                            | Some ms => ms
                            | None => []
                            end)
                      /\ captured m = true
                      /\ req = {| method := POST;
                                  url := baseUrl config ++ lit "/memories";
                                  query := [];
                                  headers := [(lit "Content-Type",
                                               lit "application/json")];
                                  timeout := None;
                                  body :=
                                    Some (Mem0Client.add_body config
                                            (Plugin.message_text m)
                                            (agentId event)) |}) rs.
Proof.
  intros server config event. unfold Plugin.agent_end.
  induction (match messages event with Some ms => ms | None => [] end)
    as [|m ms IH]; intros w.
  - exists []. cbn [Plugin.for_of]. unfold ret. cbn [snd].
    rewrite app_nil_r. split; [reflexivity|constructor].
  - cbn [Plugin.for_of]. unfold bind.
    destruct (capture_requests server config (agentId event) m w)
      as (rs1 & E1 & R1 & F1).
    rewrite E1.
    destruct (IH (snd (Plugin.capture server config (agentId event) m w)))
      as (rs2 & R2 & F2).
    exists (rs1 ++ rs2). split.
    + rewrite R2, R1. now rewrite app_assoc.
    + apply Forall_app. split.
      * eapply Forall_impl; [|exact F1]. cbn beta.
        intros req [->|[C ->]]; [now left|right].
        exists m. repeat split; auto. now left.
      * eapply Forall_impl; [|exact F2]. cbn beta.
        intros req [->|(m' & I & C & ->)]; [now left|right].
        exists m'. repeat split; auto. now right.
Qed.

(** ** Configuration and registration *)

Lemma str_or_truthy (x : option jsstring) (d : jsstring) :
  d <> [] -> str_or x d <> [].
Proof.
  intros D. unfold str_or. destruct x as [[|c s]|]; simpl; congruence.
Qed.

Lemma num_or_truthy (x : option float) (d : float) :
  num_truthy d = true -> num_truthy (num_or x d) = true.
Proof.
  intros D. unfold num_or. destruct x as [n|]; [|exact D].
  now destruct (num_truthy n) eqn:T.
Qed.

Lemma parse_truthy (value : option RawConfig) :
  baseUrl (configSchema.parse value) <> []
  /\ userId (configSchema.parse value) <> []
  /\ num_truthy (recallLimit (configSchema.parse value)) = true
  /\ num_truthy (recallThreshold (configSchema.parse value)) = true.
Proof.
  unfold configSchema.parse;
    cbn [baseUrl userId recallLimit recallThreshold].
  repeat split.
  - apply str_or_truthy. discriminate.
  - apply str_or_truthy. discriminate.
  - now apply num_or_truthy.
  - now apply num_or_truthy.
Qed.

Lemma parse_supplied_truthy (c : Mem0Config) :
  baseUrl c <> [] -> userId c <> [] ->
  num_truthy (recallLimit c) = true ->
  num_truthy (recallThreshold c) = true ->
  configSchema.parse (Some (supplied c)) = c.
Proof.
  destruct c as [b u ac ar l t]; cbn [baseUrl userId recallLimit
                                       recallThreshold].
  intros B U L T. unfold configSchema.parse, supplied. simpl.
  rewrite L, T. destruct b; [congruence|]. destruct u; [congruence|].
  now destruct ac, ar.
Qed.

(** X19.  Whatever the host supplies, the parsed configuration has a base
    URL and a user id that are not empty and a recall limit and a recall
    threshold that are neither [0] nor [NaN]; so parsing is idempotent:
    parsing what parsing returned, with every field supplied, returns it
    again. *)
Theorem parsed_config_has_no_falsy_field :
  forall value,
    (baseUrl (configSchema.parse value) <> []
     /\ userId (configSchema.parse value) <> []
     /\ num_truthy (recallLimit (configSchema.parse value)) = true
     /\ num_truthy (recallThreshold (configSchema.parse value)) = true)
    /\ configSchema.parse (Some (supplied (configSchema.parse value)))
       = configSchema.parse value.
Proof.
  intros value.
  pose proof (parse_truthy value) as P. split; [exact P|].
  destruct P as (B & U & L & T).
  now apply parse_supplied_truthy.
Qed.

(** X20.  Parsing gives back a configuration that supplies every field
    exactly when none of its strings is empty and none of its numbers is
    [0] or [NaN]: nothing else is checked or changed, so a negative limit
    and a threshold outside 0 to 1 pass as they are. *)
Theorem supplied_config_round_trip :
  forall c,
    configSchema.parse (Some (supplied c)) = c
    <-> (baseUrl c <> [] /\ userId c <> []
         /\ num_truthy (recallLimit c) = true
         /\ num_truthy (recallThreshold c) = true).
Proof.
  intros c. split.
  - intros E. rewrite <- E. apply parse_truthy.
  - intros (B & U & L & T). now apply parse_supplied_truthy.
Qed.

(** X21.  Registering sends nothing and checks nothing: it never throws,
    writes one line, and the client it builds is unchecked, whatever was
    there before, so the first operation after it is the one that probes.
    A hook is registered unless the supplied configuration has its switch
    at exactly [false]. *)
Theorem register_is_lazy :
  forall parseInt ns server pluginConfig w,
  exists reg line,
    Plugin.register parseInt ns server pluginConfig w
    = (Ok reg,
       {| healthChecked := false;
          trace := trace w ++ [Console Log line None] |})
    /\ (Plugin.on_before_agent_start reg = None
        <-> exists v, pluginConfig = Some v
                      /\ raw_autoRecall v = Some false)
    /\ (Plugin.on_agent_end reg = None
        <-> exists v, pluginConfig = Some v
                      /\ raw_autoCapture v = Some false).
Proof.
  intros parseInt ns server pluginConfig w.
  unfold Plugin.register, bind, set_healthChecked, console, emit, ret.
  cbn [trace healthChecked].
  eexists _, _. split; [reflexivity|].
  cbn [Plugin.on_before_agent_start Plugin.on_agent_end].
  unfold configSchema.parse; cbn [autoRecall autoCapture].
  split; split.
  - destruct pluginConfig as [v|]; [|discriminate].
    destruct (raw_autoRecall v) as [[|]|] eqn:E; try discriminate. eauto.
  - intros (v & -> & ->). reflexivity.
  - destruct pluginConfig as [v|]; [|discriminate].
    destruct (raw_autoCapture v) as [[|]|] eqn:E; try discriminate. eauto.
  - intros (v & -> & ->). reflexivity.
Qed.

(** ** The command line *)

Lemma printed_lines (ls : list jsstring) :
  printed (map (fun s => Console Log s None) ls) = ls.
Proof. induction ls as [|l ls IH]; simpl; [reflexivity|now rewrite IH]. Qed.

Lemma requests_lines (ls : list jsstring) :
  requests (map (fun s => Console Log s None) ls) = [].
Proof. induction ls as [|l ls IH]; simpl; auto. Qed.

Lemma print_found_exact ns i0 ms w :
  Plugin.print_found ns i0 ms w
  = (Ok tt, extend w (map (fun s => Console Log s None)
                        (found_lines ns i0 ms))).
Proof.
  revert i0 w; induction ms as [|m ms IH]; intros i0 w.
  - unfold extend. cbn. rewrite app_nil_r. now destruct w.
  - cbn [Plugin.print_found found_lines map].
    unfold bind, console, emit. rewrite IH. unfold extend.
    cbn [trace healthChecked]. rewrite <- !app_assoc. reflexivity.
Qed.

Lemma print_listed_exact i0 ms w :
  Plugin.print_listed i0 ms w
  = (Ok tt, extend w (map (fun s => Console Log s None)
                        (listed_lines i0 ms))).
Proof.
  revert i0 w; induction ms as [|m ms IH]; intros i0 w.
  - unfold extend. cbn. rewrite app_nil_r. now destruct w.
  - cbn [Plugin.print_listed listed_lines map].
    unfold bind, console, emit. rewrite IH. unfold extend.
    cbn [trace healthChecked]. rewrite <- !app_assoc. reflexivity.
Qed.

Lemma found_lines_length ns i0 ms :
  List.length (found_lines ns i0 ms) = (2 * List.length ms)%nat.
Proof.
  revert i0; induction ms as [|m ms IH]; intros i0; [reflexivity|].
  cbn [found_lines List.length]. rewrite IH. lia.
Qed.

Lemma listed_lines_length i0 ms :
  List.length (listed_lines i0 ms) = (2 * List.length ms)%nat.
Proof.
  revert i0; induction ms as [|m ms IH]; intros i0; [reflexivity|].
  cbn [listed_lines List.length]. rewrite IH. lia.
Qed.

Lemma found_lines_nth ns i0 ms k m :
  nth_error ms k = Some m ->
  nth_error (found_lines ns i0 ms) (2 * k)
  = Some (Plugin.found_line ns (i0 + N.of_nat k) m)
  /\ nth_error (found_lines ns i0 ms) (2 * k + 1)
     = Some (Plugin.id_line m).
Proof.
  revert i0 k; induction ms as [|m0 ms IH]; intros i0 [|k] E;
    try discriminate E.
  - injection E as ->. cbn. now rewrite N.add_0_r.
  - cbn [nth_error] in E. destruct (IH (i0 + 1)%N k E) as [A B].
    replace (2 * S k)%nat with (S (S (2 * k))) by lia.
    cbn [found_lines nth_error Nat.add]. rewrite A, B.
    replace (i0 + 1 + N.of_nat k)%N with (i0 + N.of_nat (S k))%N by lia.
    now split.
Qed.

Lemma listed_lines_nth i0 ms k m :
  nth_error ms k = Some m ->
  nth_error (listed_lines i0 ms) (2 * k)
  = Some (Plugin.listed_line (i0 + N.of_nat k) m)
  /\ nth_error (listed_lines i0 ms) (2 * k + 1)
     = Some (Plugin.id_line m).
Proof.
  revert i0 k; induction ms as [|m0 ms IH]; intros i0 [|k] E;
    try discriminate E.
  - injection E as ->. cbn. now rewrite N.add_0_r.
  - cbn [nth_error] in E. destruct (IH (i0 + 1)%N k E) as [A B].
    replace (2 * S k)%nat with (S (S (2 * k))) by lia.
    cbn [listed_lines nth_error Nat.add]. rewrite A, B.
    replace (i0 + 1 + N.of_nat k)%N with (i0 + N.of_nat (S k))%N by lia.
    now split.
Qed.

(** X22.  After the health check, [mem0 search] prints one line,
    [No memories found for: "<query>"], and returns, when the search
    returns nothing, which is also what a failed search reads as.  When the
    search returns memories, each with a score that is a number or with
    none, it prints the count and then two lines for each memory, in the
    order of the server: its number, text and bracketed score, and its id
    followed by an empty line. *)
Theorem cli_search_prints_what_it_found :
  forall ns server config parseInt q l w,
    let out := server (trace (after_check server config w))
                 (Mem0Client.search_request ns config q
                    (Some (parseInt l))) in
    let run := Plugin.mem0_search ns server config parseInt q l w in
    (failed out = true \/ memories_of out = [] ->
     fst run = Ok tt
     /\ printed (trace (snd run))
        = printed (trace (after_check server config w))
          ++ [lit "No memories found for: " ++ [34%N] ++ q ++ [34%N]])
    /\ (forall m ms,
          memories_of out = m :: ms ->
          exists lines,
            printed (trace (snd run))
            = printed (trace (after_check server config w))
              ++ (newline ++ lit "Found "
                    ++ digits (N.of_nat (S (List.length ms)))
                    ++ lit " memories:" ++ newline)
                 :: lines
            /\ List.length lines = (2 * S (List.length ms))%nat
            /\ forall k mk,
                 nth_error (m :: ms) k = Some mk ->
                 nth_error lines (2 * k)
                 = Some (digits (N.of_nat k + 1) ++ lit ". " ++ memory mk
                           ++ match score mk with
                              | Some sc =>
                                  lit " [" ++ toFixed2 ns sc ++ lit "]"
                              | None => []
                              end)
                 /\ nth_error lines (2 * k + 1)
                    = Some (lit "   ID: " ++ id mk ++ newline)).
Proof.
  intros ns server config parseInt q l w out run. subst run.
  unfold Plugin.mem0_search, bind. rewrite search_exact. fold out.
  assert (P : forall line,
            printed (trace (extend (after_check server config w)
                              (Fetch (Mem0Client.search_request ns config q
                                        (Some (parseInt l))) out
                                 :: complaint line
                                      (caught (lit "Search failed: ")
                                         true true out))))
            = printed (trace (after_check server config w))).
  { intros line. unfold extend. cbn [trace]. rewrite printed_app.
    unfold complaint. destruct (caught _ _ _ _); cbn [printed];
      now rewrite app_nil_r. }
  assert (F : failed out = true -> memories_of out = []).
  { destruct out as [|r]; [reflexivity|]. cbn [failed memories_of].
    intros F. apply negb_true_iff in F. now rewrite F. }
  destruct (memories_of out) as [|m ms] eqn:E.
  - unfold console, emit. cbn [fst snd trace].
    split; [|discriminate].
    intros _. split; [reflexivity|]. rewrite printed_app, P. reflexivity.
  - unfold bind, console, emit. rewrite print_found_exact. cbn [fst snd].
    split.
    { intros [H|H]; [apply F in H|]; discriminate H. }
    intros m' ms' [= <- <-].
    exists (found_lines ns 0 (m :: ms)). split; [|split].
    + unfold extend at 1. cbn [trace healthChecked].
      rewrite !printed_app, P, printed_lines. cbn [printed].
      now rewrite <- app_assoc.
    + apply found_lines_length.
    + intros k mk N.
      destruct (found_lines_nth ns 0 (m :: ms) k mk N) as [A B].
      split; [exact A|exact B].
Qed.

(** X23.  The limit of [mem0 search] is what [parseInt] makes of the
    option: when that is [NaN] (the option does not start with a number) or
    [0], the search is sent with the configured recall limit; any other
    number is sent as it is, with no bound applied. *)
Theorem cli_search_limit :
  forall ns server config parseInt q l w,
  exists sent,
    requests (trace (snd (Plugin.mem0_search ns server config parseInt
                            q l w)))
    = requests (trace w)
      ++ (if healthChecked w then []
          else [Mem0Client.health_request config])
      ++ [ {| method := GET;
              url := baseUrl config ++ lit "/memories/search";
              query := [(lit "query", q);
                        (lit "user_id", userId config);
                        (lit "limit", ns sent)];
              headers := [(lit "Content-Type", lit "application/json")];
              timeout := None;
              body := None |} ]
    /\ (num_truthy (parseInt l) = false -> sent = recallLimit config)
    /\ (num_truthy (parseInt l) = true -> sent = parseInt l).
Proof.
  intros ns server config parseInt q l w.
  exists (Mem0Client.effective_limit config (Some (parseInt l))).
  split.
  - unfold Plugin.mem0_search, bind. rewrite search_exact.
    assert (R : forall ls (w1 : World),
              requests (trace (extend w1
                                 (map (fun s => Console Log s None) ls)))
              = requests (trace w1)).
    { intros ls w1. unfold extend. cbn [trace].
      now rewrite requests_app, requests_lines, app_nil_r. }
    destruct (after_check_trace server config w) as (evs & A & Q & _).
    assert (S : requests
                  (trace (extend (after_check server config w)
                            (Fetch (Mem0Client.search_request ns config q
                                      (Some (parseInt l)))
                               (server (trace (after_check server config w))
                                  (Mem0Client.search_request ns config q
                                     (Some (parseInt l))))
                               :: complaint
                                    (lit "[memory-mem0] Search error:")
                                    (caught (lit "Search failed: ") true true
                                       (server
                                          (trace (after_check server config
                                                    w))
                                          (Mem0Client.search_request ns
                                             config q
                                             (Some (parseInt l))))))))
                = requests (trace w)
                  ++ (if healthChecked w then []
                      else [Mem0Client.health_request config])
                  ++ [Mem0Client.search_request ns config q
                        (Some (parseInt l))]).
    { unfold extend. rewrite A. cbn [trace].
      rewrite !requests_app, Q. cbn [requests]. unfold complaint.
      destruct (caught _ _ _ _); cbn [requests];
        now rewrite <- app_assoc. }
    destruct (memories_of _) as [|m ms].
    + unfold console, emit. cbn [snd trace].
      rewrite requests_app. cbn [requests]. rewrite app_nil_r. exact S.
    + unfold bind, console, emit. rewrite print_found_exact. cbn [snd].
      rewrite R. cbn [trace]. rewrite requests_app. cbn [requests].
      rewrite app_nil_r. exact S.
  - unfold Mem0Client.effective_limit, num_or.
    split; intros T; now rewrite T.
Qed.

(** X24.  [mem0 list] never throws.  After the health check it prints one
    line, [No memories stored yet.], when the list is empty, which is also
    what a failed request reads as; otherwise it prints the total and then
    two lines for each memory, in the order of the server: its number and
    text, without a score, and its id followed by an empty line. *)
Theorem cli_list_prints_what_is_stored :
  forall server config w,
    let out := server (trace (after_check server config w))
                 (Mem0Client.list_request config) in
    let run := Plugin.mem0_list server config w in
    fst run = Ok tt
    /\ (failed out = true \/ memories_of out = [] ->
        printed (trace (snd run))
        = printed (trace (after_check server config w))
          ++ [lit "No memories stored yet."])
    /\ (forall m ms,
          memories_of out = m :: ms ->
          exists lines,
            printed (trace (snd run))
            = printed (trace (after_check server config w))
              ++ (newline ++ lit "Total memories: "
                    ++ digits (N.of_nat (S (List.length ms))) ++ newline)
                 :: lines
            /\ List.length lines = (2 * S (List.length ms))%nat
            /\ forall k mk,
                 nth_error (m :: ms) k = Some mk ->
                 nth_error lines (2 * k)
                 = Some (digits (N.of_nat k + 1) ++ lit ". " ++ memory mk)
                 /\ nth_error lines (2 * k + 1)
                    = Some (lit "   ID: " ++ id mk ++ newline)).
Proof.
  intros server config w out run. subst run.
  unfold Plugin.mem0_list, bind. rewrite list_exact. fold out.
  assert (P : forall line,
            printed (trace (extend (after_check server config w)
                              (Fetch (Mem0Client.list_request config) out
                                 :: complaint line
                                      (caught (lit "List failed: ")
                                         true true out))))
            = printed (trace (after_check server config w))).
  { intros line. unfold extend. cbn [trace]. rewrite printed_app.
    unfold complaint. destruct (caught _ _ _ _); cbn [printed];
      now rewrite app_nil_r. }
  assert (F : failed out = true -> memories_of out = []).
  { destruct out as [|r]; [reflexivity|]. cbn [failed memories_of].
    intros F. apply negb_true_iff in F. now rewrite F. }
  destruct (memories_of out) as [|m ms] eqn:E.
  - unfold console, emit. cbn [fst snd trace].
    split; [reflexivity|]. split; [|discriminate].
    intros _. rewrite printed_app, P. reflexivity.
  - unfold bind, console, emit. rewrite print_listed_exact. cbn [fst snd].
    split; [reflexivity|]. split.
    { intros [H|H]; [apply F in H|]; discriminate H. }
    intros m' ms' [= <- <-].
    exists (listed_lines 0 (m :: ms)). split; [|split].
    + unfold extend at 1. cbn [trace healthChecked].
      rewrite !printed_app, P, printed_lines. cbn [printed].
      now rewrite <- app_assoc.
    + apply listed_lines_length.
    + intros k mk N.
      destruct (listed_lines_nth 0 (m :: ms) k mk N) as [A B].
      split; [exact A|exact B].
Qed.

(** X25.  [mem0 forget] never throws and prints, after the health check,
    one line: [Deleted: <id>] when the response to its [DELETE] is 2xx and
    [Failed to delete: <id>] otherwise. *)
Theorem cli_forget_prints_the_outcome :
  forall server config i w,
    let out := server (trace (after_check server config w))
                 (Mem0Client.delete_request config i) in
    let run := Plugin.mem0_forget server config i w in
    fst run = Ok tt
    /\ printed (trace (snd run))
       = printed (trace (after_check server config w))
         ++ [if failed out then lit "Failed to delete: " ++ i
             else lit "Deleted: " ++ i].
Proof.
  intros server config i w out run. subst run.
  unfold Plugin.mem0_forget, bind. rewrite delete_exact. fold out.
  unfold console, emit, extend. cbn [fst snd trace].
  split; [reflexivity|].
  rewrite !printed_app. cbn [printed]. unfold complaint.
  destruct (caught _ _ _ _), (failed out); cbn [printed negb];
    now rewrite ?app_nil_r.
Qed.

(** ** What the health check says *)

(** X26.  The health check of a checked client does nothing.  On an
    unchecked client it sends the probe and writes exactly one line, never
    with [console.error].  The line is a warning with the status when the
    status is not 2xx, and the client is then checked.  On a 2xx response
    whose body is a JSON value other than [null] it is [Connected to Mem0
    server:] with the [status] of the body, [undefined] when the body has
    none, and the client is then checked.  It is the warning [Could not
    connect to Mem0 server:], with the error, when the request is rejected,
    when the body of a 2xx response is not JSON and when it is [null] (the
    read of [data.status] throws), and the client is then still
    unchecked. *)
Theorem health_check_says_one_line :
  forall server config w,
    (healthChecked w = true -> after_check server config w = w)
    /\ (healthChecked w = false ->
        after_check server config w
        = {| healthChecked :=
               match probe_outcome server config w with
               | Rejected => false
               | Responded r =>
                   if ok r
                   then match json r with
                        | None | Some JNull => false
                        | Some _ => true
                        end
                   else true
               end;
             trace :=
               trace w
               ++ [Fetch (Mem0Client.health_request config)
                     (probe_outcome server config w);
                   match probe_outcome server config w with
                   | Rejected =>
                       Console Warn
                         (lit "[memory-mem0] Could not connect to Mem0 server:")
                         (Some FetchFailed)
                   | Responded r =>
                       if ok r
                       then match json r with
                            | None =>
                                Console Warn
                                  (lit "[memory-mem0] Could not connect to Mem0 server:")
                                  (Some SyntaxError)
                            | Some JNull =>
                                Console Warn
                                  (lit "[memory-mem0] Could not connect to Mem0 server:")
                                  (Some TypeError)
                            | Some (JHealth (Some st)) =>
                                Console Log
                                  (lit "[memory-mem0] Connected to Mem0 server: "
                                     ++ st) None
                            | Some _ =>
                                Console Log
                                  (lit "[memory-mem0] Connected to Mem0 server: "
                                     ++ lit "undefined") None
                            end
                       else
                         Console Warn
                           (lit "[memory-mem0] Health check failed: "
                              ++ digits (status r)) None
                   end] |}).
Proof.
  intros server config w. split.
  - intros H. unfold after_check, Mem0Client.ensureHealthy, bind,
      get_healthChecked. now rewrite H.
  - intros H.
    destruct w as [[|] t]; [discriminate H|]. clear H.
    unfold after_check, probe_outcome, Mem0Client.ensureHealthy, bind,
      get_healthChecked, try_catch, Mem0Client.fetch.
    cbn [trace healthChecked].
    unfold bind, console, emit, set_healthChecked,
      Mem0Client.response_json, Mem0Client.data_status, ret, throw.
    destruct (server t (Mem0Client.health_request config)) as [|r];
      cbn [snd trace healthChecked].
    + now rewrite <- app_assoc.
    + destruct (ok r); cbn [negb].
      * destruct (json r) as [[|[st|]|ms|a]|];
          cbn [snd trace healthChecked template];
          now rewrite <- ?app_assoc.
      * cbn [snd trace healthChecked]. now rewrite <- ?app_assoc.
Qed.
